(** * efficientdet/keras/utils_keras.py

    A shallow embedding of the three Keras layers of
    [efficientdet/keras/utils_keras.py] ([ActivationFn], [BatchNormAct],
    [DropConnect]) and the properties their specification states.

    Conventions of the embedding:
    - floating-point scalars are idealised as real numbers ([R]);
    - a tensor is a nest of lists of scalars;
    - a Python object is a record of its attributes, each one optional
      until the constructor assigns it; [__init__] passes [self] along;
    - a raised exception is the [Raise] case of [result];
    - a function object stored in an attribute is a constructor of an
      inductive type together with its application function, so that the
      identity of the stored function can be observed. *)

From Stdlib Require Import Reals Lra ZArith String List Bool.
Import ListNotations.

Local Open Scope string_scope.
Local Open Scope R_scope.

(** ** Python values, exceptions *)

(** The values an argument annotated [Union[Text, None]] can take. *)
Inductive value : Type :=
| PyNone
| PyStr (s : string).

(** [a == b] on such values. *)
Definition py_eqb (a b : value) : bool :=
  match a, b with
  | PyNone, PyNone => true
  | PyStr s, PyStr t => String.eqb s t
  | _, _ => false
  end.

Infix "==?" := py_eqb (at level 70, no associativity).

(** ['{}'.format(v)], also the rendering of [{v}] in an f-string. *)
Definition format (v : value) : string :=
  match v with
  | PyNone => "None"
  | PyStr s => s
  end.

Inductive exn : Type :=
| ValueError (msg : string)
| AttributeError (attr : string).

Inductive result (A : Type) : Type :=
| Ok (a : A)
| Raise (e : exn).

Arguments Ok {A} a.
Arguments Raise {A} e.

Definition bind {A B : Type} (c : result A) (k : A -> result B) : result B :=
  match c with
  | Ok a => k a
  | Raise e => Raise e
  end.

Notation "x <- c ;; k" := (bind c (fun x => k))
  (at level 61, c at next level, right associativity).

(** Running a list of computations in order, up to the first that raises. *)
Fixpoint sequence {A : Type} (cs : list (result A)) : result (list A) :=
  match cs with
  | [] => Ok []
  | c :: cs' => a <- c ;; r <- sequence cs' ;; Ok (a :: r)
  end.

(** Reading an attribute that may not have been assigned yet. *)
Definition getattr {A : Type} (attr : string) (slot : option A) : result A :=
  match slot with
  | Some a => Ok a
  | None => Raise (AttributeError attr)
  end.

(** ** Dictionaries

    A Python [dict] with string keys: the entries in insertion order, no key
    twice. *)

(** The objects a layer configuration holds. *)
Inductive pyobj : Type :=
| PyVal (v : value)
| PyBool (b : bool).

Definition dict : Type := list (string * pyobj).

Definition keys (d : dict) : list string := map fst d.

(** [d.get(k)] *)
Fixpoint dict_get (k : string) (d : dict) : option pyobj :=
  match d with
  | [] => None
  | (k', v) :: d' => if String.eqb k k' then Some v else dict_get k d'
  end.

(** [{**d, k: v}]: the entry of a key already present is replaced where it
    stands, a new key is added at the end. *)
Fixpoint dict_set (d : dict) (k : string) (v : pyobj) : dict :=
  match d with
  | [] => [(k, v)]
  | (k', v') :: d' =>
      if String.eqb k k' then (k', v) :: d' else (k', v') :: dict_set d' k v
  end.

(** ** Tensors *)

#[warnings="-register-all"] Inductive tensor : Type :=
| Scalar (x : R)
| Dim (ts : list tensor).

(** Elementwise application of a scalar function. *)
Fixpoint tmap (f : R -> R) (t : tensor) : tensor :=
  match t with
  | Scalar x => Scalar (f x)
  | Dim ts => Dim (map (tmap f) ts)
  end.

(** The shape of a tensor as the framework reports it: the length of every
    dimension, read along the first entry. *)
Fixpoint shape (t : tensor) : list nat :=
  match t with
  | Scalar _ => []
  | Dim ts =>
      length ts :: match ts with
                   | [] => []
                   | t0 :: _ => shape t0
                   end
  end.

(** A tensor with [n] dimensions, every entry at the same depth. *)
Fixpoint has_rank (t : tensor) (n : nat) {struct t} : bool :=
  match t, n with
  | Scalar _, O => true
  | Dim ts, S n' => forallb (fun t' => has_rank t' n') ts
  | _, _ => false
  end.

(** The tensor with [n] dimensions of length one around a scalar. *)
Fixpoint unit_nest (n : nat) (x : R) : tensor :=
  match n with
  | O => Scalar x
  | S n' => Dim [unit_nest n' x]
  end.

(** The scalars of a tensor, in row-major order. *)
Fixpoint entries (t : tensor) : list R :=
  match t with
  | Scalar x => [x]
  | Dim ts => flat_map entries ts
  end.

(** ** The tensor framework ([import tensorflow.compat.v1 as tf]) *)

Module tf.

(** [tf.sigmoid] *)
Definition sigmoid_scalar (x : R) : R := 1 / (1 + exp (- x)).
Definition sigmoid (x : tensor) : tensor := tmap sigmoid_scalar x.

(** [x * y] with broadcasting, for operands with the same number of
    dimensions (the two uses in the file: a tensor by its own sigmoid, a
    batch of four dimensions by a mask of shape [[n, 1, 1, 1]]): a dimension
    of length one stretches over the other operand; dimensions of other
    lengths must agree, or the framework raises.  Operands that differ in
    their number of dimensions, which the framework aligns from the last
    dimension, are outside this definition. *)
Fixpoint mul (x y : tensor) {struct x} : result tensor :=
  match x, y with
  | Scalar a, Scalar b => Ok (Scalar (a * b))
  | Scalar a, Dim _ => Ok (tmap (fun b => a * b) y)
  | Dim _, Scalar b => Ok (tmap (fun a => a * b) x)
  | Dim xs, Dim ys =>
      match xs, ys with
      | [x0], _ => r <- sequence (map (mul x0) ys) ;; Ok (Dim r)
      | _, [y0] => r <- sequence (map (fun x' => mul x' y0) xs) ;; Ok (Dim r)
      | _, _ =>
          r <- (fix zip (xs ys : list tensor) {struct xs} : result (list tensor) :=
                  match xs, ys with
                  | [], [] => Ok []
                  | x' :: xs', y' :: ys' =>
                      z <- mul x' y' ;; zs <- zip xs' ys' ;; Ok (z :: zs)
                  | _, _ => Raise (ValueError "Dimensions must be equal")
                  end) xs ys ;;
          Ok (Dim r)
      end
  end.

(** [tf.div(x, p)] with a Python float as divisor, in exact arithmetic. *)
Definition div (x : tensor) (p : R) : tensor := tmap (fun a => a / p) x.

(** [p + x] with a Python float as first operand, in exact arithmetic. *)
Definition add_float (p : R) (x : tensor) : tensor := tmap (fun a => p + a) x.

(** [tf.floor] *)
Definition floor_scalar (x : R) : R := IZR (Zfloor x).
Definition floor (x : tensor) : tensor := tmap floor_scalar x.

(** [tf.shape(x)[0]] *)
Definition shape0 (x : tensor) : result nat :=
  match shape x with
  | n :: _ => Ok n
  | [] => Raise (ValueError "slice index 0 of dimension 0 out of bounds")
  end.

(** The tensor of shape [[n, 1, 1, 1]] holding the given [n] draws. *)
Definition column (us : list R) : tensor :=
  Dim (map (fun u => Dim [Dim [Dim [Scalar u]]]) us).

Module nn.

(** [tf.nn.swish]: the framework's fused kernel, [x * sigmoid(x)]. *)
Definition swish_scalar (x : R) : R := x * sigmoid_scalar x.
Definition swish (features : tensor) : tensor := tmap swish_scalar features.

(** [tf.nn.relu]: [max(features, 0)]. *)
Definition relu_scalar (x : R) : R := Rmax x 0.
Definition relu (features : tensor) : tensor := tmap relu_scalar features.

(** [tf.nn.relu6]: [min(max(features, 0), 6)]. *)
Definition relu6_scalar (x : R) : R := Rmin (Rmax x 0) 6.
Definition relu6 (features : tensor) : tensor := tmap relu6_scalar features.

End nn.

(** [tf.zeros_initializer()] and [tf.ones_initializer()]. *)
Inductive initializer : Type :=
| zeros_initializer
| ones_initializer.

(** The values an initializer gives a parameter vector of [n] entries. *)
Definition initial_values (i : initializer) (n : nat) : list R :=
  match i with
  | zeros_initializer => repeat 0 n
  | ones_initializer => repeat 1 n
  end.

End tf.

(** ** Classes and method resolution

    The file declares three classes, each with [tf.keras.layers.Layer] as its
    only base.  [class_body] lists the functions bound by the [def]
    statements placed directly in a class body; a [def] placed inside the
    body of another function binds a local name of that function and is no
    entry of the class. *)

Inductive class : Type :=
| LayerClass
| ActivationFnClass
| BatchNormActClass
| DropConnectClass.

Definition class_body (c : class) : list string :=
  match c with
  | LayerClass => ["__init__"; "__call__"; "call"; "get_config"]
  | ActivationFnClass => ["__init__"; "call"; "get_config"]
  | BatchNormActClass => ["__init__"; "call"]
  | DropConnectClass => ["__init__"]
  end.

Definition mro (c : class) : list class :=
  match c with
  | LayerClass => [LayerClass]
  | _ => [c; LayerClass]
  end.

Definition defines (method : string) (c : class) : bool :=
  existsb (String.eqb method) (class_body c).

(** The class whose definition an attribute lookup [obj.method] reaches. *)
Definition resolve (c : class) (method : string) : option class :=
  find (defines method) (mro c).

(** [tf.keras.layers.Layer]: the parts the three classes rely on. *)
Module Layer.

(** [Layer.__init__(name=...)] records the name; [PyNone] stands for a
    name the framework generates. *)
Definition __init__ (name : value) : value := name.

(** [Layer.call] of the base class returns its inputs. *)
Definition call {A : Type} (inputs : A) : result A := Ok inputs.

End Layer.

(** ** [class ActivationFn] *)

Module ActivationFn.

(** The function objects [__init__] stores in [self.act]. *)
Inductive act_fn : Type :=
| tf_nn_swish            (* tf.nn.swish *)
| lambda_mul_sigmoid     (* lambda x: x * tf.sigmoid(x) *)
| tf_nn_relu             (* tf.nn.relu *)
| tf_nn_relu6.           (* tf.nn.relu6 *)

Definition apply_act (f : act_fn) (x : tensor) : result tensor :=
  match f with
  | tf_nn_swish => Ok (tf.nn.swish x)
  | lambda_mul_sigmoid => tf.mul x (tf.sigmoid x)
  | tf_nn_relu => Ok (tf.nn.relu x)
  | tf_nn_relu6 => Ok (tf.nn.relu6 x)
  end.

(** [tf.keras.layers.Lambda(function, name=name)].  The only function the
    class wraps is [lambda x: self.act(x)], which reads [self.act] when it
    is called. *)
Inductive lambda_fn : Type :=
| lambda_self_act.

Record Lambda : Type := mkLambda {
  function : lambda_fn;
  lambda_name : value
}.

Record t : Type := mk {
  layer_name : option value;   (* set by Layer.__init__ *)
  act_type : option value;     (* self.act_type *)
  act : option act_fn;         (* self.act *)
  layer : option Lambda        (* self.layer *)
}.

(** The object before [__init__] has run. *)
Definition blank : t := mk None None None None.

Definition set_layer_name (self : t) (v : value) : t :=
  mk (Some v) (act_type self) (act self) (layer self).
Definition set_act_type (self : t) (v : value) : t :=
  mk (layer_name self) (Some v) (act self) (layer self).
Definition set_act (self : t) (f : act_fn) : t :=
  mk (layer_name self) (act_type self) (Some f) (layer self).
Definition set_layer (self : t) (l : Lambda) : t :=
  mk (layer_name self) (act_type self) (act self) (Some l).

Definition default_name : value := PyStr "activation_fn".

Definition __init__ (self : t) (act_type : value) (name : value) : result t :=
  let self := set_layer_name self (Layer.__init__ PyNone) in
  let self := set_act_type self act_type in
  self <- (if act_type ==? PyStr "swish" then
             Ok (set_act self tf_nn_swish)
           else if act_type ==? PyStr "swish_native" then
             Ok (set_act self lambda_mul_sigmoid)
           else if act_type ==? PyStr "relu" then
             Ok (set_act self tf_nn_relu)
           else if act_type ==? PyStr "relu6" then
             Ok (set_act self tf_nn_relu6)
           else
             Raise (ValueError ("Unsupported act_type " ++ format act_type))) ;;
  Ok (set_layer self (mkLambda lambda_self_act name)).

(** The expression [ActivationFn(act_type, name=name)]: the caller gets the
    object when [__init__] returns and the exception when it raises. *)
Definition new (act_type : value) (name : value) : result t :=
  __init__ blank act_type name.

(** Calling the wrapped [Lambda] layer. *)
Definition call_Lambda (self : t) (l : Lambda) (x : tensor) : result tensor :=
  match function l with
  | lambda_self_act =>
      f <- getattr "act" (act self) ;;
      apply_act f x
  end.

Definition call (self : t) (features : tensor) : result tensor :=
  l <- getattr "layer" (layer self) ;;
  call_Lambda self l features.

(** [get_config]: [base_config] is what [super().get_config()] returned for
    this object; it holds the name the framework generated for the object,
    so it is not shared between two layers. *)
Definition get_config (base_config : dict) (self : t) : result dict :=
  v <- getattr "act_type" (act_type self) ;;
  Ok (dict_set base_config "act_type" (PyVal v)).

(** An object all of whose attributes have been assigned. *)
Definition initialized (self : t) : Prop :=
  layer_name self <> None /\ act_type self <> None /\
  act self <> None /\ layer self <> None.

End ActivationFn.

(** ** The normalization collaborators
    ([from utils import BatchNormalization, TpuBatchNormalization]) *)

Module utils.

Inductive norm_class : Type :=
| TpuBatchNormalizationClass
| BatchNormalizationClass.

(** Modelled from the spec: the two normalization layers live in [utils.py],
    which is not among the sources; the specification gives them "a uniform
    construction signature [(axis, momentum, epsilon, center=true,
    scale=true, gammaInitializer, name) -> NormalizationOp] and an invocation
    signature [apply(tensor, trainingMode) -> tensor]".  A constructed layer
    is the record of its class and of the keyword arguments it received. *)
Record NormalizationOp : Type := mkOp {
  op_class : norm_class;
  axis : Z;
  momentum : R;
  epsilon : R;
  center : bool;
  scale : bool;
  gamma_initializer : tf.initializer;
  name : string
}.

Definition TpuBatchNormalization := mkOp TpuBatchNormalizationClass.
Definition BatchNormalization := mkOp BatchNormalizationClass.

(** What applying a normalization layer computes is left to the
    collaborator; its failures surface unchanged. *)
Class Normalization : Type := {
  apply : NormalizationOp -> tensor -> bool -> result tensor
}.

End utils.

(** ** [class BatchNormAct] *)

Module BatchNormAct.

Record t : Type := mk {
  layer_name : option value;                     (* set by Layer.__init__ *)
  act_type : option value;                       (* self.act_type *)
  training : option bool;                        (* self.training *)
  gamma_initializer : option tf.initializer;     (* self.gamma_initializer *)
  axis : option Z;                               (* self.axis *)
  layer : option utils.NormalizationOp;          (* self.layer *)
  act : option ActivationFn.t                    (* self.act *)
}.

Definition blank : t := mk None None None None None None None.

Definition set_layer_name (self : t) (v : value) : t :=
  mk (Some v) (act_type self) (training self) (gamma_initializer self)
     (axis self) (layer self) (act self).
Definition set_act_type (self : t) (v : value) : t :=
  mk (layer_name self) (Some v) (training self) (gamma_initializer self)
     (axis self) (layer self) (act self).
Definition set_training (self : t) (b : bool) : t :=
  mk (layer_name self) (act_type self) (Some b) (gamma_initializer self)
     (axis self) (layer self) (act self).
Definition set_gamma_initializer (self : t) (i : tf.initializer) : t :=
  mk (layer_name self) (act_type self) (training self) (Some i)
     (axis self) (layer self) (act self).
Definition set_axis (self : t) (a : Z) : t :=
  mk (layer_name self) (act_type self) (training self) (gamma_initializer self)
     (Some a) (layer self) (act self).
Definition set_layer (self : t) (l : utils.NormalizationOp) : t :=
  mk (layer_name self) (act_type self) (training self) (gamma_initializer self)
     (axis self) (Some l) (act self).
Definition set_act (self : t) (a : ActivationFn.t) : t :=
  mk (layer_name self) (act_type self) (training self) (gamma_initializer self)
     (axis self) (layer self) (Some a).

(** The f-string [f'{parent_name}/{name}']. *)
Definition qualified_name (parent_name name : value) : string :=
  format parent_name ++ "/" ++ format name.

Definition __init__ (self : t)
    (is_training_bn : bool) (act_type : value) (init_zero : bool)
    (data_format : value) (momentum epsilon : R) (use_tpu : bool)
    (name parent_name : value) : result t :=
  let self := set_layer_name self (Layer.__init__ parent_name) in
  let self := set_act_type self act_type in
  let self := set_training self is_training_bn in
  let self :=
    if init_zero then set_gamma_initializer self tf.zeros_initializer
    else set_gamma_initializer self tf.ones_initializer in
  let self :=
    if data_format ==? PyStr "channels_first" then set_axis self 1%Z
    else set_axis self 3%Z in
  self <-
    (if is_training_bn && use_tpu then
       ax <- getattr "axis" (axis self) ;;
       gi <- getattr "gamma_initializer" (gamma_initializer self) ;;
       Ok (set_layer self
             (utils.TpuBatchNormalization ax momentum epsilon true true gi
                (qualified_name parent_name name)))
     else
       ax <- getattr "axis" (axis self) ;;
       gi <- getattr "gamma_initializer" (gamma_initializer self) ;;
       Ok (set_layer self
             (utils.BatchNormalization ax momentum epsilon true true gi
                (qualified_name parent_name name)))) ;;
  a <- ActivationFn.new act_type parent_name ;;
  Ok (set_act self a).

(** The expression [BatchNormAct(is_training_bn, act_type, ...)]. *)
Definition new (is_training_bn : bool) (act_type : value) (init_zero : bool)
    (data_format : value) (momentum epsilon : R) (use_tpu : bool)
    (name parent_name : value) : result t :=
  __init__ blank is_training_bn act_type init_zero data_format momentum epsilon
    use_tpu name parent_name.

(** [BatchNormAct(is_training_bn, act_type)], every other parameter at the
    default of the signature (source lines 65 to 71). *)
Definition new_defaults (is_training_bn : bool) (act_type : value) : result t :=
  new is_training_bn act_type false (PyStr "channels_last") 0.99 1e-3 false
    PyNone PyNone.

Definition call `{utils.Normalization} (self : t) (inputs : tensor)
    : result tensor :=
  l <- getattr "layer" (layer self) ;;
  tr <- getattr "training" (training self) ;;
  x <- utils.apply l inputs tr ;;
  a <- getattr "act" (act self) ;;
  x <- ActivationFn.call a x ;;
  Ok x.

End BatchNormAct.

(** ** [class DropConnect] *)

Module DropConnect.

Record t : Type := mk {
  layer_name : option value;     (* set by Layer.__init__ *)
  survival_prob : option R       (* self.survival_prob *)
}.

Definition blank : t := mk None None.

Definition default_name : value := PyStr "drop_connect".

(** The function that the [def call] statement in the body of [__init__]
    builds (source lines 119 to 129).  It closes over [self]; the draws of
    [tf.random_uniform] come from the entropy source [random_uniform], which
    hands out the asked number of values. *)
Definition __init__call (self : t) (random_uniform : nat -> list R)
    (inputs : tensor) : result tensor :=
  batch_size <- tf.shape0 inputs ;;
  random_tensor <- getattr "survival_prob" (survival_prob self) ;;
  let random_tensor :=
    tf.add_float random_tensor (tf.column (random_uniform batch_size)) in
  let binary_tensor := tf.floor random_tensor in
  p <- getattr "survival_prob" (survival_prob self) ;;
  output <- tf.mul (tf.div inputs p) binary_tensor ;;
  Ok output.

(** [__init__] binds the function above to its local name [call] and
    returns; the binding ends with the activation of [__init__]. *)
Definition __init__ (self : t) (survival_prob : R) (name : value) : t :=
  let self := mk (Some (Layer.__init__ name)) (DropConnect.survival_prob self) in
  let self := mk (layer_name self) (Some survival_prob) in
  let call := __init__call self in
  self.

Definition new (survival_prob : R) (name : value) : t :=
  __init__ blank survival_prob name.

(** [self.call(inputs)]: the method the class hierarchy provides. *)
Definition call (self : t) (inputs : tensor) : result tensor :=
  match resolve DropConnectClass "call" with
  | Some LayerClass => Layer.call inputs
  | _ => Raise (AttributeError "call")
  end.

End DropConnect.

(** ** The specification's reading of the components

    Definitions that follow the words of the specification, for comparison
    with the embedded code. *)

Module Spec.

(** "ActivationKind: enumerated tag \{identity-swish, native-swish, relu,
    relu-capped-at-6\}". *)
Inductive ActivationKind : Type :=
| identity_swish
| native_swish
| relu
| relu_capped_at_6.

(** The source's spelling of each tag, in the order of the [if] chain. *)
Definition tag (k : ActivationKind) : value :=
  match k with
  | identity_swish => PyStr "swish"
  | native_swish => PyStr "swish_native"
  | relu => PyStr "relu"
  | relu_capped_at_6 => PyStr "relu6"
  end.

(** "identity-swish: [x * sigmoid(x)] computed from primitive ops";
    "native-swish: the framework's fused swish implementation". *)
Definition implementation (k : ActivationKind) : ActivationFn.act_fn :=
  match k with
  | identity_swish => ActivationFn.lambda_mul_sigmoid
  | native_swish => ActivationFn.tf_nn_swish
  | relu => ActivationFn.tf_nn_relu
  | relu_capped_at_6 => ActivationFn.tf_nn_relu6
  end.

(** "floor to get a binary keep/drop mask". *)
Definition keep_mask (p u : R) : R := IZR (Zfloor (p + u)).

(** "draw one uniform random value per batch element in [0,1); add
    survivalProbability; floor to get a binary keep/drop mask broadcast
    across all non-batch dimensions; divide input by survivalProbability;
    multiply by mask". *)
Definition stochastic_depth (p : R) (us : list R) (inputs : tensor) : tensor :=
  match inputs with
  | Scalar x => Scalar x
  | Dim samples =>
      Dim (map (fun su => tmap (fun x => x / p * keep_mask p (snd su)) (fst su))
               (combine samples us))
  end.

End Spec.

(** The tags of the four recognized kinds. *)
Definition recognized (act_type : value) : Prop :=
  exists k : Spec.ActivationKind, act_type = Spec.tag k.

(** The function object the [if] chain of [ActivationFn.__init__] (source
    lines 35 to 42) assigns to [self.act] under each recognized tag. *)
Definition stored_act (k : Spec.ActivationKind) : ActivationFn.act_fn :=
  match k with
  | Spec.identity_swish => ActivationFn.tf_nn_swish
  | Spec.native_swish => ActivationFn.lambda_mul_sigmoid
  | Spec.relu => ActivationFn.tf_nn_relu
  | Spec.relu_capped_at_6 => ActivationFn.tf_nn_relu6
  end.

(** The scalar function the stored function object of each recognized tag
    computes on every entry. *)
Definition scalar_act (k : Spec.ActivationKind) : R -> R :=
  match stored_act k with
  | ActivationFn.tf_nn_swish => tf.nn.swish_scalar
  | ActivationFn.lambda_mul_sigmoid => fun x => x * tf.sigmoid_scalar x
  | ActivationFn.tf_nn_relu => tf.nn.relu_scalar
  | ActivationFn.tf_nn_relu6 => tf.nn.relu6_scalar
  end.

(** ** Concrete inputs used in the examples below *)

(** A sample of shape [[1, 1, 1]]. *)
Definition sample (x : R) : tensor := Dim [Dim [Dim [Scalar x]]].

(** A normalization layer that returns its input, whatever its
    configuration and the training flag. *)
Definition plain_normalization : utils.Normalization :=
  {| utils.apply := fun _ x _ => Ok x |}.

(** * Properties *)

(** ** The error monad and tensors *)

Lemma bind_Ok_r {A : Type} (c : result A) : (x <- c ;; Ok x) = c.
Proof. destruct c; reflexivity. Qed.

Lemma bind_Ok_inv {A B : Type} (c : result A) (k : A -> result B) (b : B) :
  (x <- c ;; k x) = Ok b -> exists a, c = Ok a /\ k a = Ok b.
Proof. destruct c as [a|e]; simpl; [eauto | discriminate]. Qed.

(** Induction over a tensor, with the hypothesis available for every entry of
    a dimension. *)
Lemma tensor_induction (P : tensor -> Prop) :
  (forall x, P (Scalar x)) ->
  (forall ts, Forall P ts -> P (Dim ts)) ->
  forall t, P t.
Proof.
  intros HS HD. fix IH 1. intros [x|ts].
  - apply HS.
  - apply HD. induction ts as [|t0 ts' IHts]; constructor.
    + apply IH.
    + exact IHts.
Qed.

(** Elementwise functions keep the shape. *)
Lemma shape_tmap (f : R -> R) (t : tensor) : shape (tmap f t) = shape t.
Proof.
  induction t as [x|ts IH] using tensor_induction; simpl; [reflexivity|].
  rewrite length_map. f_equal.
  destruct ts as [|t0 ts']; simpl; [reflexivity|].
  inversion IH; assumption.
Qed.

(** Multiplying a tensor by an elementwise image of itself never meets
    unequal dimensions: the product is the elementwise product. *)
Lemma mul_tmap_self (f : R -> R) (t : tensor) :
  tf.mul t (tmap f t) = Ok (tmap (fun a => a * f a) t).
Proof.
  induction t as [x|ts IH] using tensor_induction; [reflexivity|].
  destruct ts as [|t0 [|t1 ts']].
  - reflexivity.
  - inversion IH as [|? ? H0 _]; subst. simpl. rewrite H0. reflexivity.
  - cbn [tmap map tf.mul].
    assert (Hzip : forall us, Forall (fun t => tf.mul t (tmap f t) = Ok (tmap (fun a => a * f a) t)) us ->
      (fix zip (xs ys : list tensor) {struct xs} : result (list tensor) :=
         match xs, ys with
         | [], [] => Ok []
         | x' :: xs', y' :: ys' =>
             z <- tf.mul x' y' ;; zs <- zip xs' ys' ;; Ok (z :: zs)
         | _, _ => Raise (ValueError "Dimensions must be equal")
         end) us (map (tmap f) us) = Ok (map (tmap (fun a => a * f a)) us)).
    { induction 1 as [|u us' Hu _ IHus]; [reflexivity|].
      cbn [map]. rewrite Hu. cbn [bind]. rewrite IHus. reflexivity. }
    specialize (Hzip _ IH). cbn [map] in Hzip. rewrite Hzip. reflexivity.
Qed.

(** ** [ActivationFn] *)

Lemma ActivationFn_new_recognized (k : Spec.ActivationKind) (name : value) :
  ActivationFn.new (Spec.tag k) name =
  Ok (ActivationFn.mk (Some PyNone) (Some (Spec.tag k)) (Some (stored_act k))
        (Some (ActivationFn.mkLambda ActivationFn.lambda_self_act name))).
Proof. destruct k; reflexivity. Qed.

Lemma ActivationFn_new_unrecognized (act_type name : value) :
  ~ recognized act_type ->
  ActivationFn.new act_type name =
  Raise (ValueError ("Unsupported act_type " ++ format act_type)).
Proof.
  intros Hnot. unfold ActivationFn.new, ActivationFn.__init__.
  destruct act_type as [|s]; [reflexivity|]. unfold py_eqb.
  destruct (String.eqb_spec s "swish") as [->|_].
  { exfalso. apply Hnot. exists Spec.identity_swish. reflexivity. }
  destruct (String.eqb_spec s "swish_native") as [->|_].
  { exfalso. apply Hnot. exists Spec.native_swish. reflexivity. }
  destruct (String.eqb_spec s "relu") as [->|_].
  { exfalso. apply Hnot. exists Spec.relu. reflexivity. }
  destruct (String.eqb_spec s "relu6") as [->|_].
  { exfalso. apply Hnot. exists Spec.relu_capped_at_6. reflexivity. }
  reflexivity.
Qed.

(** Whether a tag is recognized can be decided. *)
Lemma recognized_dec (act_type : value) :
  {recognized act_type} + {~ recognized act_type}.
Proof.
  destruct act_type as [|s].
  - right. intros [k Hk]. destruct k; discriminate.
  - destruct (String.string_dec s "swish") as [->|H1];
      [left; exists Spec.identity_swish; reflexivity|].
    destruct (String.string_dec s "swish_native") as [->|H2];
      [left; exists Spec.native_swish; reflexivity|].
    destruct (String.string_dec s "relu") as [->|H3];
      [left; exists Spec.relu; reflexivity|].
    destruct (String.string_dec s "relu6") as [->|H4];
      [left; exists Spec.relu_capped_at_6; reflexivity|].
    right. intros [k Hk]. destruct k; injection Hk; intros; subst; congruence.
Defined.

(** The result of [call] on an object built for a recognized tag. *)
Lemma ActivationFn_call_recognized (k : Spec.ActivationKind) (name : value)
    (self : ActivationFn.t) (features : tensor) :
  ActivationFn.new (Spec.tag k) name = Ok self ->
  ActivationFn.call self features = ActivationFn.apply_act (stored_act k) features.
Proof.
  rewrite ActivationFn_new_recognized. intros [= <-]. reflexivity.
Qed.

(** C2, as the specification words it, does not hold: under the tag
    ['swish'] (identity-swish) the constructor stores the framework's fused
    [tf.nn.swish], not the composition of primitive ops. *)
Lemma C2_swish_tags_counterexample :
  ~ (forall k : Spec.ActivationKind,
       k = Spec.identity_swish \/ k = Spec.native_swish ->
       exists self,
         ActivationFn.new (Spec.tag k) ActivationFn.default_name = Ok self /\
         ActivationFn.act self = Some (Spec.implementation k)).
Proof.
  intros H. destruct (H Spec.identity_swish (or_introl eq_refl)) as [self [Hnew Hact]].
  rewrite ActivationFn_new_recognized in Hnew. injection Hnew as <-.
  discriminate Hact.
Qed.

(** C2 (amended): the tag ['swish'] selects the framework's fused swish
    [tf.nn.swish], and the tag ['swish_native'] selects the composition
    [x * tf.sigmoid(x)] of primitive ops; [call] applies the selected
    function. *)
Theorem C2_swish_tags_amended :
  forall name : value,
    (exists self,
        ActivationFn.new (PyStr "swish") name = Ok self /\
        ActivationFn.act self = Some ActivationFn.tf_nn_swish /\
        forall x, ActivationFn.call self x = Ok (tf.nn.swish x)) /\
    (exists self,
        ActivationFn.new (PyStr "swish_native") name = Ok self /\
        ActivationFn.act self = Some ActivationFn.lambda_mul_sigmoid /\
        forall x, ActivationFn.call self x = tf.mul x (tf.sigmoid x)).
Proof.
  intros name. split; eexists; (split; [reflexivity|]); split; reflexivity.
Qed.

(** C3: a tag outside the four recognized kinds makes the construction raise
    [ValueError] with a message that carries the tag, and the caller receives
    no object; for a recognized tag the construction yields an object with
    every attribute assigned, and [call] on it returns a tensor for every
    input. *)
Theorem C3_unrecognized_tag_raises :
  forall act_type name : value,
    (~ recognized act_type ->
       ActivationFn.new act_type name =
       Raise (ValueError ("Unsupported act_type " ++ format act_type)) /\
       forall self, ActivationFn.new act_type name <> Ok self) /\
    (recognized act_type ->
       exists self,
         ActivationFn.new act_type name = Ok self /\
         ActivationFn.initialized self /\
         forall features, exists out, ActivationFn.call self features = Ok out).
Proof.
  intros act_type name. split.
  - intros Hnot. rewrite (ActivationFn_new_unrecognized _ _ Hnot).
    split; [reflexivity | discriminate].
  - intros [k ->]. eexists. split; [apply ActivationFn_new_recognized|].
    split.
    + repeat split; discriminate.
    + intros features.
      rewrite (ActivationFn_call_recognized k name _ features
                 (ActivationFn_new_recognized k name)).
      destruct k; cbn [stored_act ActivationFn.apply_act];
        try (eexists; reflexivity).
      unfold tf.sigmoid. rewrite mul_tmap_self. eexists; reflexivity.
Qed.

(** The tag ['gelu'] is refused, the tag ['relu'] is accepted. *)
Lemma C3_unrecognized_tag_raises_witness :
  (ActivationFn.new (PyStr "gelu") ActivationFn.default_name =
     Raise (ValueError "Unsupported act_type gelu")) /\
  (exists self,
     ActivationFn.new (PyStr "relu") ActivationFn.default_name = Ok self /\
     ActivationFn.initialized self).
Proof.
  split.
  - apply (C3_unrecognized_tag_raises (PyStr "gelu") ActivationFn.default_name).
    intros [k Hk]. destruct k; discriminate Hk.
  - destruct (proj2 (C3_unrecognized_tag_raises (PyStr "relu")
                       ActivationFn.default_name)) as [self [Hnew [Hinit _]]].
    + exists Spec.relu. reflexivity.
    + exists self. split; assumption.
Defined.

(** The three regimes of [tf.nn.relu6] on a scalar. *)
Lemma relu6_scalar_below (x : R) : x <= 0 -> tf.nn.relu6_scalar x = 0.
Proof.
  intros H. unfold tf.nn.relu6_scalar.
  rewrite Rmax_right by exact H. apply Rmin_left. lra.
Qed.

Lemma relu6_scalar_inside (x : R) : 0 <= x <= 6 -> tf.nn.relu6_scalar x = x.
Proof.
  intros [H0 H6]. unfold tf.nn.relu6_scalar.
  rewrite Rmax_left by exact H0. apply Rmin_left. exact H6.
Qed.

Lemma relu6_scalar_above (x : R) : 6 <= x -> tf.nn.relu6_scalar x = 6.
Proof.
  intros H. unfold tf.nn.relu6_scalar.
  rewrite Rmax_left by lra. apply Rmin_right. exact H.
Qed.

(** C7: under the tag ['relu6'] the layer returns [min(max(x, 0), 6)] for
    every entry [x] of every input tensor; on [[-2, 3, 9]] it returns
    [[0, 3, 6]]. *)
Theorem C7_relu6_clamps :
  forall name : value,
  exists self,
    ActivationFn.new (PyStr "relu6") name = Ok self /\
    (forall features,
       ActivationFn.call self features =
       Ok (tmap (fun x => Rmin (Rmax x 0) 6) features)) /\
    ActivationFn.call self (Dim [Scalar (-2); Scalar 3; Scalar 9]) =
    Ok (Dim [Scalar 0; Scalar 3; Scalar 6]).
Proof.
  intros name. eexists. split; [reflexivity|]. split; [reflexivity|].
  rewrite (ActivationFn_call_recognized Spec.relu_capped_at_6 name _ _
             (ActivationFn_new_recognized Spec.relu_capped_at_6 name)).
  cbn [stored_act ActivationFn.apply_act tf.nn.relu6 tmap map].
  assert (H2 : tf.nn.relu6_scalar (-2) = 0) by (apply relu6_scalar_below; lra).
  assert (H3 : tf.nn.relu6_scalar 3 = 3) by (apply relu6_scalar_inside; lra).
  assert (H9 : tf.nn.relu6_scalar 9 = 6) by (apply relu6_scalar_above; lra).
  rewrite H2, H3, H9. reflexivity.
Qed.

(** C8: on every input tensor, the layer built for ['swish'] and the layer
    built for ['swish_native'] return the same tensor (in exact arithmetic). *)
Theorem C8_swish_variants_agree :
  forall (name name' : value) (features : tensor),
  exists self self' out,
    ActivationFn.new (PyStr "swish") name = Ok self /\
    ActivationFn.new (PyStr "swish_native") name' = Ok self' /\
    ActivationFn.call self features = Ok out /\
    ActivationFn.call self' features = Ok out.
Proof.
  intros name name' features.
  pose proof (ActivationFn_new_recognized Spec.identity_swish name) as Hs.
  pose proof (ActivationFn_new_recognized Spec.native_swish name') as Hn.
  do 3 eexists. split; [exact Hs|]. split; [exact Hn|].
  rewrite (ActivationFn_call_recognized _ _ _ features Hs).
  rewrite (ActivationFn_call_recognized _ _ _ features Hn).
  cbn [stored_act ActivationFn.apply_act]. unfold tf.sigmoid.
  rewrite mul_tmap_self. split; reflexivity.
Qed.

(** ** [DropConnect] *)

(** The class body of [DropConnect] holds no [call]: the lookup ends in the
    base class. *)
Lemma DropConnect_call_resolves_to_Layer :
  resolve DropConnectClass "call" = Some LayerClass /\
  resolve ActivationFnClass "call" = Some ActivationFnClass /\
  resolve BatchNormActClass "call" = Some BatchNormActClass.
Proof. repeat split. Qed.

(** Whatever the survival probability, [call] hands its input back. *)
Lemma DropConnect_call_identity (p : R) (name : value) (inputs : tensor) :
  DropConnect.call (DropConnect.new p name) inputs = Ok inputs.
Proof. reflexivity. Qed.

Lemma floor_scalar_unit (x : R) (z : Z) :
  IZR z <= x < IZR z + 1 -> tf.floor_scalar x = IZR z.
Proof. intros H. unfold tf.floor_scalar. rewrite (Zfloor_eq z x H). reflexivity. Qed.

(** The mask of the specification is binary, and keeps a sample exactly
    when the draw reaches [1 - p]. *)
Lemma keep_mask_keep (p u : R) :
  0 < p <= 1 -> 0 <= u < 1 -> 1 - p <= u -> Spec.keep_mask p u = 1.
Proof.
  intros Hp Hu Hk. unfold Spec.keep_mask.
  rewrite (Zfloor_eq 1 (p + u)); [reflexivity | lra].
Qed.

Lemma keep_mask_drop (p u : R) :
  0 < p <= 1 -> 0 <= u < 1 -> u < 1 - p -> Spec.keep_mask p u = 0.
Proof.
  intros Hp Hu Hd. unfold Spec.keep_mask.
  rewrite (Zfloor_eq 0 (p + u)); [reflexivity | lra].
Qed.

Lemma keep_mask_binary (p u : R) :
  0 < p <= 1 -> 0 <= u < 1 -> Spec.keep_mask p u = 0 \/ Spec.keep_mask p u = 1.
Proof.
  intros Hp Hu. destruct (Rlt_le_dec u (1 - p)) as [Hd|Hk].
  - left. apply keep_mask_drop; assumption.
  - right. apply keep_mask_keep; assumption.
Qed.

(** With a survival probability below one, the specified output on a sample
    holding 1 differs from the sample for every draw: it is 0 or [1 / p]. *)
Lemma stochastic_depth_changes_sample (p u : R) :
  0 < p < 1 -> 0 <= u < 1 ->
  Spec.stochastic_depth p [u] (Dim [sample 1]) <> Dim [sample 1].
Proof.
  intros Hp Hu. unfold Spec.stochastic_depth, sample.
  cbn [combine map fst snd tmap]. intros H. injection H as H.
  destruct (keep_mask_binary p u) as [Hm|Hm]; try lra; rewrite Hm in H.
  - lra.
  - assert (Hinv : 1 / p * 1 = / p) by (field; lra).
    rewrite Hinv in H. assert (Hp1 : p * / p = 1) by (field; lra).
    rewrite H in Hp1. lra.
Qed.

(** ... so that, there, [call] departs from the specification on every
    draw. *)
Lemma DropConnect_call_departs (p u : R) (name : value) :
  0 < p < 1 -> 0 <= u < 1 ->
  DropConnect.call (DropConnect.new p name) (Dim [sample 1]) <>
  Ok (Spec.stochastic_depth p [u] (Dim [sample 1])).
Proof.
  intros Hp Hu. rewrite DropConnect_call_identity. intros H.
  apply (stochastic_depth_changes_sample p u Hp Hu). congruence.
Qed.

(** Broadcasting: a tensor of [n] dimensions of length one scales every
    entry of a tensor of [n] dimensions. *)
Lemma sequence_map_Ok {A B : Type} (f : A -> result B) (g : A -> B)
    (l : list A) :
  Forall (fun a => f a = Ok (g a)) l -> sequence (map f l) = Ok (map g l).
Proof.
  induction 1 as [|a l' Ha _ IH]; [reflexivity|].
  cbn [map sequence]. rewrite Ha. cbn [bind]. rewrite IH. reflexivity.
Qed.

Lemma mul_unit_nest (f : R -> R) (m : R) (t : tensor) :
  forall n, has_rank t n = true ->
  tf.mul (tmap f t) (unit_nest n m) = Ok (tmap (fun a => f a * m) t).
Proof.
  induction t as [x|ts IH] using tensor_induction; intros [|n] Hrank;
    try discriminate Hrank; [reflexivity|].
  cbn [has_rank] in Hrank. rewrite forallb_forall in Hrank.
  assert (Hall : Forall (fun t' => tf.mul (tmap f t') (unit_nest n m) =
                                   Ok (tmap (fun a => f a * m) t')) ts).
  { rewrite Forall_forall in IH |- *. intros t' Hin.
    apply IH; [exact Hin | apply Hrank; exact Hin]. }
  destruct ts as [|t0 [|t1 ts']].
  - reflexivity.
  - inversion Hall as [|? ? H0 _]; subst.
    cbn [tmap map unit_nest tf.mul sequence]. rewrite H0. reflexivity.
  - pose proof (sequence_map_Ok _ (tmap (fun a => f a * m)) _ Hall) as Hseq.
    cbn [map] in Hseq.
    cbn [unit_nest tmap]. cbn [map tf.mul]. rewrite map_map, Hseq.
    reflexivity.
Qed.

(** On every batch of samples with three dimensions, and with an entropy
    source that hands out as many draws as asked, the function nested in
    [__init__] computes the algorithm of the specification. *)
Lemma DropConnect_nested_call_specified (p : R) (name : value)
    (random_uniform : nat -> list R) (samples : list tensor) :
  (forall n, length (random_uniform n) = n) ->
  forallb (fun s => has_rank s 3) samples = true ->
  DropConnect.__init__call (DropConnect.new p name) random_uniform
    (Dim samples) =
  Ok (Spec.stochastic_depth p (random_uniform (length samples)) (Dim samples)).
Proof.
  intros Hlen Hrank. specialize (Hlen (length samples)).
  unfold DropConnect.__init__call, DropConnect.new, DropConnect.__init__,
    tf.shape0.
  cbn [shape bind getattr DropConnect.survival_prob].
  generalize dependent (random_uniform (length samples)). intros us Hlen.
  unfold tf.add_float, tf.column, tf.floor, tf.div, Spec.stochastic_depth.
  cbn [tmap]. rewrite !map_map.
  assert (Hzip : forall xs us',
    forallb (fun s => has_rank s 3) xs = true -> length us' = length xs ->
    (fix zip (xs ys : list tensor) {struct xs} : result (list tensor) :=
       match xs, ys with
       | [], [] => Ok []
       | x' :: xs', y' :: ys' =>
           z <- tf.mul x' y' ;; zs <- zip xs' ys' ;; Ok (z :: zs)
       | _, _ => Raise (ValueError "Dimensions must be equal")
       end)
      (map (tmap (fun a => a / p)) xs)
      (map (fun u => tmap tf.floor_scalar
                       (tmap (fun a => p + a) (Dim [Dim [Dim [Scalar u]]]))) us')
    = Ok (map (fun su => tmap (fun x => x / p * Spec.keep_mask p (snd su))
                           (fst su)) (combine xs us'))).
  { induction xs as [|x xs' IHxs]; intros [|u us'] Hr Hl;
      try discriminate Hl; [reflexivity|].
    cbn [forallb] in Hr. apply andb_prop in Hr. destruct Hr as [Hx Hr].
    cbn [map combine fst snd].
    change (tmap tf.floor_scalar
              (tmap (fun a => p + a) (Dim [Dim [Dim [Scalar u]]])))
      with (unit_nest 3 (Spec.keep_mask p u)).
    rewrite (mul_unit_nest _ _ _ 3 Hx). cbn [bind].
    rewrite IHxs; [reflexivity | exact Hr | now injection Hl]. }
  destruct samples as [|s0 [|s1 samples']].
  - destruct us; [reflexivity | discriminate Hlen].
  - destruct us as [|u [|? ?]]; try discriminate Hlen.
    cbn [forallb] in Hrank. apply andb_prop in Hrank. destruct Hrank as [H0 _].
    cbn [map combine fst snd tf.mul sequence].
    change (tmap tf.floor_scalar
              (tmap (fun a => p + a) (Dim [Dim [Dim [Scalar u]]])))
      with (unit_nest 3 (Spec.keep_mask p u)).
    rewrite (mul_unit_nest _ _ _ 3 H0). reflexivity.
  - destruct us as [|u0 [|u1 us']]; try discriminate Hlen.
    specialize (Hzip (s0 :: s1 :: samples') (u0 :: u1 :: us') Hrank Hlen).
    cbn [map tf.mul]. cbn [map] in Hzip. rewrite Hzip. reflexivity.
Qed.

(** C1 on the code: with survival probability 1/2, a batch of two samples
    holding 1 and the draws 1/4 and 3/4, the algorithm of the specification
    (and the function nested in [__init__]) zeroes the first sample and
    doubles the second, while [call] returns the batch unchanged. *)
Theorem C1_drop_connect_call_is_inherited :
  DropConnect.call (DropConnect.new (1/2) DropConnect.default_name)
    (Dim [sample 1; sample 1]) = Ok (Dim [sample 1; sample 1]) /\
  Spec.stochastic_depth (1/2) [1/4; 3/4] (Dim [sample 1; sample 1]) =
    Dim [sample 0; sample 2] /\
  DropConnect.__init__call (DropConnect.new (1/2) DropConnect.default_name)
    (fun _ => [1/4; 3/4]) (Dim [sample 1; sample 1]) =
    Ok (Dim [sample 0; sample 2]) /\
  Dim [sample 1; sample 1] <> Dim [sample 0; sample 2].
Proof.
  assert (Hdrop : tf.floor_scalar (1/2 + 1/4) = 0)
    by (apply (floor_scalar_unit _ 0); lra).
  assert (Hkeep : tf.floor_scalar (1/2 + 3/4) = 1)
    by (apply (floor_scalar_unit _ 1); lra).
  split; [reflexivity|]. split; [|split].
  - unfold Spec.stochastic_depth, Spec.keep_mask, sample.
    cbn [combine map fst snd tmap].
    change (IZR (Zfloor (1/2 + 1/4))) with (tf.floor_scalar (1/2 + 1/4)).
    change (IZR (Zfloor (1/2 + 3/4))) with (tf.floor_scalar (1/2 + 3/4)).
    rewrite Hdrop, Hkeep.
    replace (1 / (1/2) * 0) with 0 by lra.
    replace (1 / (1/2) * 1) with 2 by lra.
    reflexivity.
  - unfold DropConnect.__init__call, DropConnect.new, DropConnect.__init__,
      tf.shape0, tf.add_float, tf.column, tf.floor, tf.div, sample.
    cbn [shape length bind getattr DropConnect.survival_prob
         DropConnect.layer_name map tmap tf.mul sequence].
    rewrite Hdrop, Hkeep.
    replace (1 / (1/2) * 0) with 0 by lra.
    replace (1 / (1/2) * 1) with 2 by lra.
    reflexivity.
  - unfold sample. intros H. injection H as H _. lra.
Qed.

(** ** [BatchNormAct] *)

Section BatchNormAct_construction.

Variables (is_training_bn : bool) (act_type : value) (init_zero : bool)
          (momentum epsilon : R) (use_tpu : bool) (name parent_name : value).

(** The constructor in one equation: every attribute but [self.act] is
    settled before [ActivationFn] is constructed, and the outcome of that
    construction decides the outcome of the whole. *)
Lemma BatchNormAct_new_eq (data_format : value) :
  BatchNormAct.new is_training_bn act_type init_zero data_format momentum
    epsilon use_tpu name parent_name =
  (a <- ActivationFn.new act_type parent_name ;;
   Ok (BatchNormAct.mk
         (Some parent_name) (Some act_type) (Some is_training_bn)
         (Some (if init_zero then tf.zeros_initializer
                else tf.ones_initializer))
         (Some (if data_format ==? PyStr "channels_first" then 1%Z else 3%Z))
         (Some (utils.mkOp
                  (if is_training_bn && use_tpu
                   then utils.TpuBatchNormalizationClass
                   else utils.BatchNormalizationClass)
                  (if data_format ==? PyStr "channels_first" then 1%Z else 3%Z)
                  momentum epsilon true true
                  (if init_zero then tf.zeros_initializer
                   else tf.ones_initializer)
                  (BatchNormAct.qualified_name parent_name name)))
         (Some a))).
Proof.
  unfold BatchNormAct.new, BatchNormAct.__init__.
  destruct init_zero, (data_format ==? PyStr "channels_first"),
    is_training_bn, use_tpu; reflexivity.
Qed.

(** A recognized tag makes the construction return an object. *)
Lemma BatchNormAct_new_recognized (data_format : value) :
  recognized act_type ->
  exists a,
    ActivationFn.new act_type parent_name = Ok a /\
    BatchNormAct.new is_training_bn act_type init_zero data_format momentum
      epsilon use_tpu name parent_name =
    Ok (BatchNormAct.mk
          (Some parent_name) (Some act_type) (Some is_training_bn)
          (Some (if init_zero then tf.zeros_initializer
                 else tf.ones_initializer))
          (Some (if data_format ==? PyStr "channels_first" then 1%Z else 3%Z))
          (Some (utils.mkOp
                   (if is_training_bn && use_tpu
                    then utils.TpuBatchNormalizationClass
                    else utils.BatchNormalizationClass)
                   (if data_format ==? PyStr "channels_first" then 1%Z else 3%Z)
                   momentum epsilon true true
                   (if init_zero then tf.zeros_initializer
                    else tf.ones_initializer)
                   (BatchNormAct.qualified_name parent_name name)))
          (Some a)).
Proof.
  intros [k Hk]. rewrite BatchNormAct_new_eq, Hk.
  rewrite ActivationFn_new_recognized. eexists. split; reflexivity.
Qed.

(** An unrecognized tag makes it raise the error of [ActivationFn]. *)
Lemma BatchNormAct_new_unrecognized (data_format : value) :
  ~ recognized act_type ->
  BatchNormAct.new is_training_bn act_type init_zero data_format momentum
    epsilon use_tpu name parent_name =
  Raise (ValueError ("Unsupported act_type " ++ format act_type)).
Proof.
  intros Hnot. rewrite BatchNormAct_new_eq.
  rewrite (ActivationFn_new_unrecognized _ _ Hnot). reflexivity.
Qed.

(** C5: the layer stored at construction is a [TpuBatchNormalization] exactly
    when [is_training_bn] and [use_tpu] are both true and a
    [BatchNormalization] otherwise; either one receives the same arguments:
    the axis, the momentum, the epsilon, [center=True], [scale=True], the
    gamma initializer and the name [parent_name/name]: the two names as
    text, [None] as ['None'], with a slash between them. *)
Theorem C5_collaborator_selection (data_format : value) :
  recognized act_type ->
  exists self l ax gi,
    BatchNormAct.new is_training_bn act_type init_zero data_format momentum
      epsilon use_tpu name parent_name = Ok self /\
    BatchNormAct.layer self = Some l /\
    BatchNormAct.axis self = Some ax /\
    BatchNormAct.gamma_initializer self = Some gi /\
    (utils.op_class l = utils.TpuBatchNormalizationClass <->
       is_training_bn = true /\ use_tpu = true) /\
    (utils.op_class l = utils.BatchNormalizationClass <->
       ~ (is_training_bn = true /\ use_tpu = true)) /\
    l = utils.mkOp (utils.op_class l) ax momentum epsilon true true gi
          ((match parent_name with PyNone => "None" | PyStr s => s end) ++
           "/" ++
           (match name with PyNone => "None" | PyStr s => s end)).
Proof.
  intros Hrec. destruct (BatchNormAct_new_recognized data_format Hrec) as [a [_ Hnew]].
  do 4 eexists. split; [exact Hnew|]. cbn.
  split; [reflexivity|]. split; [reflexivity|]. split; [reflexivity|].
  split; [|split; [|reflexivity]].
  - destruct is_training_bn, use_tpu; cbn; split;
      solve [ auto | discriminate | intros [? ?]; discriminate ].
  - destruct is_training_bn, use_tpu; cbn; split;
      solve [ discriminate | intros H; exfalso; apply H; auto
            | intros _ [? ?]; discriminate | reflexivity ].
Qed.

(** C6: the gamma initializer stored at construction, and passed to the
    normalization layer, is [tf.zeros_initializer()] exactly when [init_zero]
    is true and [tf.ones_initializer()] otherwise. *)
Theorem C6_gamma_initializer (data_format : value) :
  recognized act_type ->
  exists self l gi,
    BatchNormAct.new is_training_bn act_type init_zero data_format momentum
      epsilon use_tpu name parent_name = Ok self /\
    BatchNormAct.gamma_initializer self = Some gi /\
    BatchNormAct.layer self = Some l /\
    utils.gamma_initializer l = gi /\
    (gi = tf.zeros_initializer <-> init_zero = true) /\
    (gi = tf.ones_initializer <-> init_zero = false) /\
    forall n, tf.initial_values gi n = repeat (if init_zero then 0 else 1) n.
Proof.
  intros Hrec. destruct (BatchNormAct_new_recognized data_format Hrec) as [a [_ Hnew]].
  do 3 eexists. split; [exact Hnew|]. cbn.
  split; [reflexivity|]. split; [reflexivity|]. split; [reflexivity|].
  destruct init_zero; repeat split; solve [ reflexivity | discriminate ].
Qed.

(** C9: with [act_type=None] the construction raises the unsupported-tag
    [ValueError]; and for whatever tag, the construction either raises that
    error or returns an object that holds a fully built [ActivationFn] for a
    recognized tag.  There is no construction without an activation. *)
Theorem C9_null_tag_raises (data_format : value) :
  BatchNormAct.new is_training_bn PyNone init_zero data_format momentum
    epsilon use_tpu name parent_name =
  Raise (ValueError "Unsupported act_type None") /\
  ((exists self a,
      BatchNormAct.new is_training_bn act_type init_zero data_format momentum
        epsilon use_tpu name parent_name = Ok self /\
      BatchNormAct.act self = Some a /\
      ActivationFn.initialized a /\
      recognized act_type) \/
   (BatchNormAct.new is_training_bn act_type init_zero data_format momentum
      epsilon use_tpu name parent_name =
    Raise (ValueError ("Unsupported act_type " ++ format act_type)) /\
    ~ recognized act_type)).
Proof.
  split.
  - unfold BatchNormAct.new, BatchNormAct.__init__.
    destruct init_zero, (data_format ==? PyStr "channels_first"),
      is_training_bn, use_tpu; reflexivity.
  - destruct (recognized_dec act_type) as [Hrec|Hnot].
    + left. destruct (BatchNormAct_new_recognized data_format Hrec) as [a [Ha Hnew]].
      do 2 eexists. split; [exact Hnew|]. split; [reflexivity|].
      split; [|exact Hrec].
      destruct Hrec as [k Hk]. rewrite Hk, ActivationFn_new_recognized in Ha.
      injection Ha as <-. repeat split; discriminate.
    + right. split; [apply BatchNormAct_new_unrecognized|]; exact Hnot.
Qed.

(** C10: no check is made on [data_format].  Any value other than
    ['channels_first'] gives axis 3 to the object and to its normalization
    layer, and whether the construction raises, and what, does not depend
    on [data_format]. *)
Theorem C10_data_format_unchecked (data_format : value) :
  data_format <> PyStr "channels_first" ->
  (recognized act_type ->
     exists self l,
       BatchNormAct.new is_training_bn act_type init_zero data_format momentum
         epsilon use_tpu name parent_name = Ok self /\
       BatchNormAct.axis self = Some 3%Z /\
       BatchNormAct.layer self = Some l /\
       utils.axis l = 3%Z) /\
  (forall e,
     BatchNormAct.new is_training_bn act_type init_zero data_format momentum
       epsilon use_tpu name parent_name = Raise e ->
     ~ recognized act_type /\
     forall data_format',
       BatchNormAct.new is_training_bn act_type init_zero data_format' momentum
         epsilon use_tpu name parent_name = Raise e).
Proof.
  intros Hdf.
  assert (Hne : (data_format ==? PyStr "channels_first") = false).
  { destruct data_format as [|s]; [reflexivity|]. unfold py_eqb.
    destruct (String.eqb_spec s "channels_first") as [Heq|_]; [|reflexivity].
    exfalso. apply Hdf. rewrite Heq. reflexivity. }
  split.
  - intros Hrec. destruct (BatchNormAct_new_recognized data_format Hrec) as [a [_ Hnew]].
    rewrite Hne in Hnew. do 2 eexists. split; [exact Hnew|].
    repeat split.
  - intros e He. destruct (recognized_dec act_type) as [Hrec|Hnot].
    + destruct (BatchNormAct_new_recognized data_format Hrec) as [a [_ Hnew]].
      rewrite Hnew in He. discriminate He.
    + split; [exact Hnot|]. intros data_format'.
      rewrite (BatchNormAct_new_unrecognized data_format Hnot) in He.
      injection He as <-. apply BatchNormAct_new_unrecognized. exact Hnot.
Qed.

End BatchNormAct_construction.

(** C4, as the specification words it, does not hold: the [ActivationFn]
    held by the block is built with the name [parent_name], while the
    qualified name [parent_name/name] goes to the normalization layer only. *)
Lemma C4_qualified_name_counterexample :
  ~ (forall (is_training_bn : bool) (act_type : value) (init_zero : bool)
            (data_format : value) (momentum epsilon : R) (use_tpu : bool)
            (name parent_name : value) (self : BatchNormAct.t),
       BatchNormAct.new is_training_bn act_type init_zero data_format momentum
         epsilon use_tpu name parent_name = Ok self ->
       exists a,
         BatchNormAct.act self = Some a /\
         ActivationFn.new act_type
           (PyStr (BatchNormAct.qualified_name parent_name name)) = Ok a).
Proof.
  intros H.
  destruct (H true (PyStr "relu") false (PyStr "channels_last") (99/100)
              (1/1000) false (PyStr "bn") (PyStr "block") _ eq_refl)
    as [a [Hact Hnew]].
  cbn in Hact. injection Hact as <-. discriminate Hnew.
Qed.

(** C4 (amended): [call] normalizes the input with the layer selected at
    construction and the stored training flag, then passes the result
    through the [ActivationFn] the block holds, which was built from the same
    tag and the name [parent_name]. *)
Theorem C4_call_normalizes_then_activates
    (N : utils.Normalization)
    (is_training_bn : bool) (act_type : value) (init_zero : bool)
    (data_format : value) (momentum epsilon : R) (use_tpu : bool)
    (name parent_name : value) (self : BatchNormAct.t) (inputs : tensor) :
  BatchNormAct.new is_training_bn act_type init_zero data_format momentum
    epsilon use_tpu name parent_name = Ok self ->
  exists l a,
    BatchNormAct.layer self = Some l /\
    BatchNormAct.training self = Some is_training_bn /\
    BatchNormAct.act self = Some a /\
    ActivationFn.new act_type parent_name = Ok a /\
    BatchNormAct.call self inputs =
    (x <- utils.apply l inputs is_training_bn ;; ActivationFn.call a x).
Proof.
  rewrite BatchNormAct_new_eq. intros Hnew.
  apply bind_Ok_inv in Hnew. destruct Hnew as [a [Ha Hself]].
  injection Hself as <-. do 2 eexists.
  split; [reflexivity|]. split; [reflexivity|]. split; [reflexivity|].
  split; [exact Ha|].
  unfold BatchNormAct.call; cbn [BatchNormAct.layer BatchNormAct.training
                                 BatchNormAct.act getattr bind].
  destruct (utils.apply _ inputs is_training_bn) as [x|e]; [|reflexivity].
  apply bind_Ok_r.
Qed.

(** A block built for ['relu'] under the names ['bn'] and ['block']. *)
Lemma C4_call_normalizes_then_activates_witness :
  exists self,
    BatchNormAct.new true (PyStr "relu") false (PyStr "channels_last")
      (99/100) (1/1000) false (PyStr "bn") (PyStr "block") = Ok self /\
    exists l a,
      BatchNormAct.layer self = Some l /\
      BatchNormAct.training self = Some true /\
      BatchNormAct.act self = Some a /\
      ActivationFn.new (PyStr "relu") (PyStr "block") = Ok a /\
      @BatchNormAct.call plain_normalization self (Dim [Scalar 1]) =
      (x <- @utils.apply plain_normalization l (Dim [Scalar 1]) true ;;
       ActivationFn.call a x).
Proof.
  eexists. split; [reflexivity|].
  apply (C4_call_normalizes_then_activates plain_normalization true
           (PyStr "relu") false (PyStr "channels_last") (99/100) (1/1000)
           false (PyStr "bn") (PyStr "block")).
  reflexivity.
Defined.

Lemma recognized_relu : recognized (PyStr "relu").
Proof. exists Spec.relu. reflexivity. Defined.

(** Training on the accelerator: both flags set. *)
Lemma C5_collaborator_selection_witness :
  exists self l ax gi,
    BatchNormAct.new true (PyStr "relu") false (PyStr "channels_last")
      (99/100) (1/1000) true (PyStr "bn") (PyStr "block") = Ok self /\
    BatchNormAct.layer self = Some l /\
    BatchNormAct.axis self = Some ax /\
    BatchNormAct.gamma_initializer self = Some gi /\
    (utils.op_class l = utils.TpuBatchNormalizationClass <->
       true = true /\ true = true) /\
    (utils.op_class l = utils.BatchNormalizationClass <->
       ~ (true = true /\ true = true)) /\
    l = utils.mkOp (utils.op_class l) ax (99/100) (1/1000) true true gi
          "block/bn".
Proof.
  apply (C5_collaborator_selection true (PyStr "relu") false (99/100) (1/1000)
           true (PyStr "bn") (PyStr "block") (PyStr "channels_last")).
  exact recognized_relu.
Defined.

(** A block built with [init_zero=True]. *)
Lemma C6_gamma_initializer_witness :
  exists self l gi,
    BatchNormAct.new false (PyStr "swish") true (PyStr "channels_last")
      (99/100) (1/1000) false (PyStr "bn") (PyStr "block") = Ok self /\
    BatchNormAct.gamma_initializer self = Some gi /\
    BatchNormAct.layer self = Some l /\
    utils.gamma_initializer l = gi /\
    (gi = tf.zeros_initializer <-> true = true) /\
    (gi = tf.ones_initializer <-> true = false) /\
    forall n, tf.initial_values gi n = repeat 0 n.
Proof.
  apply (C6_gamma_initializer false (PyStr "swish") true (99/100) (1/1000)
           false (PyStr "bn") (PyStr "block") (PyStr "channels_last")).
  exists Spec.identity_swish. reflexivity.
Defined.

(** A misspelt layout, ['channels_frist']. *)
Lemma C10_data_format_unchecked_witness :
  (recognized (PyStr "relu6") ->
     exists self l,
       BatchNormAct.new true (PyStr "relu6") false (PyStr "channels_frist")
         (99/100) (1/1000) false (PyStr "bn") (PyStr "block") = Ok self /\
       BatchNormAct.axis self = Some 3%Z /\
       BatchNormAct.layer self = Some l /\
       utils.axis l = 3%Z) /\
  (forall e,
     BatchNormAct.new true (PyStr "relu6") false (PyStr "channels_frist")
       (99/100) (1/1000) false (PyStr "bn") (PyStr "block") = Raise e ->
     ~ recognized (PyStr "relu6") /\
     forall data_format',
       BatchNormAct.new true (PyStr "relu6") false data_format'
         (99/100) (1/1000) false (PyStr "bn") (PyStr "block") = Raise e).
Proof.
  apply (C10_data_format_unchecked true (PyStr "relu6") false (99/100)
           (1/1000) false (PyStr "bn") (PyStr "block")
           (PyStr "channels_frist")).
  discriminate.
Defined.

(** * Further properties of the layers *)

(** ** Elementwise functions on tensors *)

Lemma tmap_tmap (f g : R -> R) (t : tensor) :
  tmap f (tmap g t) = tmap (fun a => f (g a)) t.
Proof.
  induction t as [x|ts IH] using tensor_induction; [reflexivity|].
  cbn [tmap]. f_equal. rewrite map_map.
  induction IH as [|t0 ts' H0 _ IHts]; [reflexivity|].
  cbn [map]. rewrite H0, IHts. reflexivity.
Qed.

Lemma entries_tmap (f : R -> R) (t : tensor) :
  entries (tmap f t) = map f (entries t).
Proof.
  induction t as [x|ts IH] using tensor_induction; [reflexivity|].
  cbn [tmap entries].
  induction IH as [|t0 ts' H0 _ IHts]; [reflexivity|].
  cbn [map flat_map]. rewrite H0, IHts, map_app. reflexivity.
Qed.

(** Two functions that agree on the entries of a tensor map it alike. *)
Lemma tmap_ext_entries (f g : R -> R) (t : tensor) :
  Forall (fun a => f a = g a) (entries t) -> tmap f t = tmap g t.
Proof.
  induction t as [x|ts IH] using tensor_induction; cbn [entries tmap].
  - intros H. inversion H; subst. congruence.
  - intros H. f_equal.
    induction IH as [|t0 ts' H0 _ IHts]; [reflexivity|].
    cbn [flat_map] in H. apply Forall_app in H. destruct H as [Ht0 Hts].
    cbn [map]. rewrite (H0 Ht0), (IHts Hts). reflexivity.
Qed.

Lemma tmap_fixed (f : R -> R) (t : tensor) :
  Forall (fun a => f a = a) (entries t) -> tmap f t = t.
Proof.
  intros H. rewrite (tmap_ext_entries f (fun a => a) t H).
  clear H. induction t as [x|ts IH] using tensor_induction; [reflexivity|].
  cbn [tmap]. f_equal.
  induction IH as [|t0 ts' H0 _ IHts]; [reflexivity|].
  cbn [map]. rewrite H0, IHts. reflexivity.
Qed.

Lemma Forall_map_image {A B : Type} (P : B -> Prop) (f : A -> B) (l : list A) :
  (forall a, P (f a)) -> Forall P (map f l).
Proof. intros H. induction l; constructor; auto. Qed.

Lemma Forall2_map_image {A B : Type} (P : A -> B -> Prop) (f : A -> B)
    (l : list A) :
  (forall a, P a (f a)) -> Forall2 P l (map f l).
Proof. intros H. induction l; constructor; auto. Qed.

(** ** The activation functions on a scalar *)

(** The scalar function each stored function object applies to every
    entry. *)
Lemma apply_act_elementwise (k : Spec.ActivationKind) (x : tensor) :
  ActivationFn.apply_act (stored_act k) x = Ok (tmap (scalar_act k) x).
Proof.
  destruct k; try reflexivity.
  cbn [stored_act ActivationFn.apply_act]. unfold tf.sigmoid.
  apply mul_tmap_self.
Qed.

(** [call] on a layer built for a recognized tag maps the scalar function of
    the tag over the input. *)
Lemma ActivationFn_call_elementwise (k : Spec.ActivationKind) (name : value)
    (self : ActivationFn.t) (features : tensor) :
  ActivationFn.new (Spec.tag k) name = Ok self ->
  ActivationFn.call self features = Ok (tmap (scalar_act k) features).
Proof.
  intros Hnew. rewrite (ActivationFn_call_recognized k name self features Hnew).
  apply apply_act_elementwise.
Qed.

Lemma sigmoid_scalar_bounds (a : R) : 0 < tf.sigmoid_scalar a < 1.
Proof.
  unfold tf.sigmoid_scalar. pose proof (exp_pos (- a)) as He.
  split.
  - apply Rdiv_lt_0_compat; lra.
  - apply (Rmult_lt_reg_r (1 + exp (- a))); [lra|].
    unfold Rdiv. rewrite Rmult_assoc, Rinv_l by lra. lra.
Qed.

Lemma relu_scalar_range (a : R) : 0 <= tf.nn.relu_scalar a.
Proof. unfold tf.nn.relu_scalar. apply Rmax_r. Qed.

Lemma relu6_scalar_range (a : R) : 0 <= tf.nn.relu6_scalar a <= 6.
Proof.
  unfold tf.nn.relu6_scalar. split.
  - apply Rmin_glb; [apply Rmax_r | lra].
  - apply Rmin_r.
Qed.

Lemma relu_scalar_fixed (a : R) : 0 <= a -> tf.nn.relu_scalar a = a.
Proof. intros H. unfold tf.nn.relu_scalar. apply Rmax_left. exact H. Qed.

(** ** [ActivationFn]: shape, range and composition *)

Lemma ActivationFn_call_shape (act_type name : value)
    (self : ActivationFn.t) (features : tensor) :
  ActivationFn.new act_type name = Ok self ->
  exists out,
    ActivationFn.call self features = Ok out /\ shape out = shape features.
Proof.
  intros Hnew. destruct (recognized_dec act_type) as [[k Hk]|Hnot].
  - subst act_type. exists (tmap (scalar_act k) features).
    split; [exact (ActivationFn_call_elementwise k name self features Hnew)|].
    apply shape_tmap.
  - rewrite (ActivationFn_new_unrecognized _ _ Hnot) in Hnew. discriminate Hnew.
Qed.

(** X1: for each of the four recognized tags, [call] returns a tensor of the
    shape of its input. *)
Theorem ActivationFn_call_preserves_shape :
  forall (act_type name : value) (self : ActivationFn.t) (features : tensor),
    ActivationFn.new act_type name = Ok self ->
    exists out,
      ActivationFn.call self features = Ok out /\ shape out = shape features.
Proof.
  intros act_type name self features Hnew.
  exact (ActivationFn_call_shape act_type name self features Hnew).
Qed.

(** On the layer for ['relu'] and a tensor of two rows. *)
Lemma ActivationFn_call_preserves_shape_witness :
  exists self,
    ActivationFn.new (PyStr "relu") ActivationFn.default_name = Ok self /\
    exists out,
      ActivationFn.call self
        (Dim [Dim [Scalar 1; Scalar (-1)]; Dim [Scalar 0; Scalar 2]]) = Ok out /\
      shape out =
      shape (Dim [Dim [Scalar 1; Scalar (-1)]; Dim [Scalar 0; Scalar 2]]).
Proof.
  eexists. split; [reflexivity|].
  apply (ActivationFn_call_preserves_shape (PyStr "relu")
           ActivationFn.default_name).
  reflexivity.
Defined.

(** X2: the outputs of the ['relu'] layer have no negative entry and those of
    the ['relu6'] layer have every entry in [[0, 6]]; a tensor whose entries
    already lie in [[0, 6]] comes back unchanged from both. *)
Theorem ActivationFn_relu_ranges :
  forall (name name' : value) (features : tensor),
  exists r r6 y y6,
    ActivationFn.new (PyStr "relu") name = Ok r /\
    ActivationFn.new (PyStr "relu6") name' = Ok r6 /\
    ActivationFn.call r features = Ok y /\
    ActivationFn.call r6 features = Ok y6 /\
    Forall (fun v => 0 <= v) (entries y) /\
    Forall (fun v => 0 <= v <= 6) (entries y6) /\
    (Forall (fun v => 0 <= v <= 6) (entries features) ->
     y = features /\ y6 = features).
Proof.
  intros name name' features.
  pose proof (ActivationFn_new_recognized Spec.relu name) as Hr.
  pose proof (ActivationFn_new_recognized Spec.relu_capped_at_6 name') as Hr6.
  do 4 eexists. split; [exact Hr|]. split; [exact Hr6|].
  split; [exact (ActivationFn_call_elementwise _ _ _ features Hr)|].
  split; [exact (ActivationFn_call_elementwise _ _ _ features Hr6)|].
  change (scalar_act Spec.relu) with tf.nn.relu_scalar.
  change (scalar_act Spec.relu_capped_at_6) with tf.nn.relu6_scalar.
  rewrite !entries_tmap. split; [|split].
  - apply Forall_map_image. exact relu_scalar_range.
  - apply Forall_map_image. exact relu6_scalar_range.
  - intros Hin. split; apply tmap_fixed;
      (eapply Forall_impl; [|exact Hin]); cbv beta; intros a Ha.
    + apply relu_scalar_fixed. lra.
    + apply relu6_scalar_inside. exact Ha.
Qed.

(** X3: the two rectifiers compose as clamps do: each layer applied to its
    own output changes nothing, and ['relu6'] after ['relu'] (or ['relu'] after
    ['relu6']) is ['relu6']. *)
Theorem ActivationFn_relu_composition :
  forall (name name' : value) (features : tensor),
  exists r r6 y y6,
    ActivationFn.new (PyStr "relu") name = Ok r /\
    ActivationFn.new (PyStr "relu6") name' = Ok r6 /\
    ActivationFn.call r features = Ok y /\
    ActivationFn.call r6 features = Ok y6 /\
    ActivationFn.call r y = Ok y /\
    ActivationFn.call r6 y6 = Ok y6 /\
    ActivationFn.call r6 y = Ok y6 /\
    ActivationFn.call r y6 = Ok y6.
Proof.
  intros name name' features.
  pose proof (ActivationFn_new_recognized Spec.relu name) as Hr.
  pose proof (ActivationFn_new_recognized Spec.relu_capped_at_6 name') as Hr6.
  do 4 eexists. split; [exact Hr|]. split; [exact Hr6|].
  split; [exact (ActivationFn_call_elementwise _ _ _ features Hr)|].
  split; [exact (ActivationFn_call_elementwise _ _ _ features Hr6)|].
  rewrite !(ActivationFn_call_elementwise _ _ _ _ Hr).
  rewrite !(ActivationFn_call_elementwise _ _ _ _ Hr6).
  change (scalar_act Spec.relu) with tf.nn.relu_scalar.
  change (scalar_act Spec.relu_capped_at_6) with tf.nn.relu6_scalar.
  rewrite !tmap_tmap.
  repeat split; f_equal; apply tmap_ext_entries;
    apply Forall_forall; intros a _.
  - apply relu_scalar_fixed, relu_scalar_range.
  - apply relu6_scalar_inside, relu6_scalar_range.
  - unfold tf.nn.relu6_scalar at 1.
    rewrite (Rmax_left (tf.nn.relu_scalar a) 0) by apply relu_scalar_range.
    reflexivity.
  - apply relu_scalar_fixed. apply relu6_scalar_range.
Qed.

(** X4: under both swish tags every entry of the output keeps the sign of
    the entry it comes from and is no larger in absolute value; a zero entry
    gives zero. *)
Theorem ActivationFn_swish_bounded_by_input :
  forall (k : Spec.ActivationKind) (name : value) (features : tensor),
    k = Spec.identity_swish \/ k = Spec.native_swish ->
    exists self out,
      ActivationFn.new (Spec.tag k) name = Ok self /\
      ActivationFn.call self features = Ok out /\
      Forall2 (fun a y => Rabs y <= Rabs a /\
                          (0 <= a -> 0 <= y) /\ (a <= 0 -> y <= 0))
              (entries features) (entries out).
Proof.
  intros k name features Hk.
  pose proof (ActivationFn_new_recognized k name) as Hnew.
  do 2 eexists. split; [exact Hnew|].
  split; [exact (ActivationFn_call_elementwise _ _ _ features Hnew)|].
  rewrite entries_tmap. apply Forall2_map_image. intros a.
  assert (Hf : scalar_act k a = a * tf.sigmoid_scalar a)
    by (destruct Hk; subst k; reflexivity).
  rewrite Hf. pose proof (sigmoid_scalar_bounds a) as [Hs0 Hs1].
  split; [|split].
  - rewrite Rabs_mult, (Rabs_pos_eq (tf.sigmoid_scalar a)) by lra.
    pose proof (Rabs_pos a). nra.
  - intros Ha. nra.
  - intros Ha. nra.
Qed.

(** On the layer for ['swish_native'] and the tensor [[-1, 0, 2]]. *)
Lemma ActivationFn_swish_bounded_by_input_witness :
  exists self out,
    ActivationFn.new (PyStr "swish_native") ActivationFn.default_name = Ok self /\
    ActivationFn.call self (Dim [Scalar (-1); Scalar 0; Scalar 2]) = Ok out /\
    Forall2 (fun a y => Rabs y <= Rabs a /\
                        (0 <= a -> 0 <= y) /\ (a <= 0 -> y <= 0))
            (entries (Dim [Scalar (-1); Scalar 0; Scalar 2])) (entries out).
Proof.
  apply (ActivationFn_swish_bounded_by_input Spec.native_swish
           ActivationFn.default_name (Dim [Scalar (-1); Scalar 0; Scalar 2])).
  right. reflexivity.
Defined.

(** ** [ActivationFn.get_config] *)

Lemma dict_get_set_same (d : dict) (k : string) (v : pyobj) :
  dict_get k (dict_set d k v) = Some v.
Proof.
  induction d as [|[k' v'] d' IH]; cbn [dict_set dict_get].
  - rewrite String.eqb_refl. reflexivity.
  - destruct (String.eqb k k') eqn:E; cbn [dict_get]; rewrite E;
      [reflexivity | exact IH].
Qed.

Lemma dict_get_set_other (d : dict) (k k0 : string) (v : pyobj) :
  k0 <> k -> dict_get k0 (dict_set d k v) = dict_get k0 d.
Proof.
  intros Hne. induction d as [|[k' v'] d' IH]; cbn [dict_set dict_get].
  - destruct (String.eqb_spec k0 k); [contradiction | reflexivity].
  - destruct (String.eqb_spec k k') as [->|Hk]; cbn [dict_get].
    + destruct (String.eqb_spec k0 k'); [contradiction | reflexivity].
    + rewrite IH. reflexivity.
Qed.

Lemma keys_dict_set (d : dict) (k : string) (v : pyobj) :
  keys (dict_set d k v) =
  if in_dec String.string_dec k (keys d) then keys d
  else (keys d ++ [k])%list.
Proof.
  unfold keys. induction d as [|[k' v'] d' IH]; [reflexivity|].
  cbn [dict_set].
  destruct (String.eqb_spec k k') as [->|Hk]; cbn [map fst].
  - destruct (in_dec String.string_dec k' (k' :: map fst d')) as [_|Hn];
      [reflexivity | exfalso; apply Hn; left; reflexivity].
  - rewrite IH.
    destruct (in_dec String.string_dec k (map fst d')) as [Hin|Hn];
      destruct (in_dec String.string_dec k (k' :: map fst d')) as [Hin'|Hn'];
      try reflexivity.
    + exfalso. apply Hn'. right. exact Hin.
    + exfalso. destruct Hin' as [He|Hin']; [congruence | contradiction].
Qed.

(** Setting again the value a key already has changes nothing. *)
Lemma dict_set_same_value (d : dict) (k : string) (v : pyobj) :
  dict_get k d = Some v -> dict_set d k v = d.
Proof.
  induction d as [|[k' v'] d' IH]; cbn [dict_get dict_set]; [discriminate|].
  destruct (String.eqb k k'); [congruence|].
  intros H. rewrite (IH H). reflexivity.
Qed.

Lemma ActivationFn_new_act_type (act_type name : value) (self : ActivationFn.t) :
  ActivationFn.new act_type name = Ok self ->
  ActivationFn.act_type self = Some act_type.
Proof.
  intros Hnew. destruct (recognized_dec act_type) as [[k Hk]|Hnot].
  - subst act_type. rewrite ActivationFn_new_recognized in Hnew.
    injection Hnew as <-. reflexivity.
  - rewrite (ActivationFn_new_unrecognized _ _ Hnot) in Hnew. discriminate Hnew.
Qed.

(** X5: on a constructed layer, [get_config] returns the base configuration
    with the tag under ['act_type']: that key reads back the tag given to the
    constructor (overriding an entry of that name in the base configuration),
    every other key reads as in the base configuration, the keys keep their
    order with ['act_type'] added last when it is new, and no key is
    repeated. *)
Theorem ActivationFn_get_config_records_tag :
  forall (base_config : dict) (act_type name : value) (self : ActivationFn.t),
    ActivationFn.new act_type name = Ok self ->
    exists config,
      ActivationFn.get_config base_config self = Ok config /\
      dict_get "act_type" config = Some (PyVal act_type) /\
      (forall k, k <> "act_type" -> dict_get k config = dict_get k base_config) /\
      keys config =
        (if in_dec String.string_dec "act_type" (keys base_config)
         then keys base_config
         else (keys base_config ++ ["act_type"])%list) /\
      (NoDup (keys base_config) -> NoDup (keys config)).
Proof.
  intros base_config act_type name self Hnew.
  unfold ActivationFn.get_config.
  rewrite (ActivationFn_new_act_type _ _ _ Hnew). cbn [getattr bind].
  eexists. split; [reflexivity|].
  split; [apply dict_get_set_same|].
  split; [intros k Hk; apply dict_get_set_other; exact Hk|].
  split; [apply keys_dict_set|].
  intros Hnodup. rewrite keys_dict_set.
  destruct (in_dec String.string_dec "act_type" (keys base_config)) as [_|Hn];
    [exact Hnodup|].
  apply NoDup_app; [exact Hnodup | constructor; [intros [] | constructor] |].
  intros k Hin [Hk|[]]. subst k. contradiction.
Qed.

(** On the layer for ['relu6'], over a base configuration with two keys. *)
Lemma ActivationFn_get_config_records_tag_witness :
  exists self,
    ActivationFn.new (PyStr "relu6") ActivationFn.default_name = Ok self /\
    exists config,
      ActivationFn.get_config
        [("name", PyVal (PyStr "activation_fn_1")); ("trainable", PyBool true)]
        self = Ok config /\
      dict_get "act_type" config = Some (PyVal (PyStr "relu6")) /\
      (forall k, k <> "act_type" ->
         dict_get k config =
         dict_get k [("name", PyVal (PyStr "activation_fn_1"));
                     ("trainable", PyBool true)]) /\
      keys config = ["name"; "trainable"; "act_type"] /\
      (NoDup ["name"; "trainable"] -> NoDup (keys config)).
Proof.
  eexists. split; [reflexivity|].
  apply (ActivationFn_get_config_records_tag
           [("name", PyVal (PyStr "activation_fn_1"));
            ("trainable", PyBool true)]
           (PyStr "relu6") ActivationFn.default_name).
  reflexivity.
Defined.

(** X6: the configuration is enough to rebuild the layer.  The tag found
    under ['act_type'] is accepted by the constructor, under any name; the
    layer built from it stores the same function and computes what the
    first one computes; and its own configuration, over whatever base
    configuration the framework gives that second layer (its generated name
    differs from the first one's), records the same tag and otherwise reads
    as that base configuration. *)
Theorem ActivationFn_get_config_round_trip :
  forall (base_config base_config' config : dict)
         (act_type name name' : value) (self : ActivationFn.t),
    ActivationFn.new act_type name = Ok self ->
    ActivationFn.get_config base_config self = Ok config ->
    exists tag self' config',
      dict_get "act_type" config = Some (PyVal tag) /\
      ActivationFn.new tag name' = Ok self' /\
      ActivationFn.act self' = ActivationFn.act self /\
      (forall features,
         ActivationFn.call self' features = ActivationFn.call self features) /\
      ActivationFn.get_config base_config' self' = Ok config' /\
      dict_get "act_type" config' = dict_get "act_type" config /\
      (forall k, k <> "act_type" ->
         dict_get k config' = dict_get k base_config').
Proof.
  intros base_config base_config' config act_type name name' self Hnew Hcfg.
  destruct (recognized_dec act_type) as [[k Hk]|Hnot];
    [|rewrite (ActivationFn_new_unrecognized _ _ Hnot) in Hnew;
      discriminate Hnew].
  subst act_type.
  pose proof (ActivationFn_new_recognized k name') as Hnew'.
  unfold ActivationFn.get_config in Hcfg.
  rewrite (ActivationFn_new_act_type _ _ _ Hnew) in Hcfg.
  cbn [getattr bind] in Hcfg. injection Hcfg as <-.
  exists (Spec.tag k). do 2 eexists.
  split; [apply dict_get_set_same|]. split; [exact Hnew'|].
  split; [|split; [|split; [|split]]].
  - rewrite ActivationFn_new_recognized in Hnew. injection Hnew as <-.
    reflexivity.
  - intros features.
    rewrite (ActivationFn_call_recognized k name' _ features Hnew').
    rewrite (ActivationFn_call_recognized k name self features Hnew).
    reflexivity.
  - reflexivity.
  - rewrite !dict_get_set_same. reflexivity.
  - intros k0 Hk0. apply dict_get_set_other. exact Hk0.
Qed.

(** A ['swish'] layer that the framework named ['activation_fn'], rebuilt
    as a layer that the framework names ['activation_fn_1']. *)
Lemma ActivationFn_get_config_round_trip_witness :
  exists tag self' config',
    dict_get "act_type"
      [("name", PyVal (PyStr "activation_fn"));
       ("act_type", PyVal (PyStr "swish"))] = Some (PyVal tag) /\
    ActivationFn.new tag (PyStr "activation_fn") = Ok self' /\
    ActivationFn.act self' = Some ActivationFn.tf_nn_swish /\
    (forall features,
       ActivationFn.call self' features =
       ActivationFn.call
         (ActivationFn.mk (Some PyNone) (Some (PyStr "swish"))
            (Some ActivationFn.tf_nn_swish)
            (Some (ActivationFn.mkLambda ActivationFn.lambda_self_act
                     ActivationFn.default_name)))
         features) /\
    ActivationFn.get_config [("name", PyVal (PyStr "activation_fn_1"))] self' =
      Ok config' /\
    dict_get "act_type" config' = Some (PyVal (PyStr "swish")) /\
    (forall k, k <> "act_type" ->
       dict_get k config' =
       dict_get k [("name", PyVal (PyStr "activation_fn_1"))]).
Proof.
  apply (ActivationFn_get_config_round_trip
           [("name", PyVal (PyStr "activation_fn"))]
           [("name", PyVal (PyStr "activation_fn_1"))]
           [("name", PyVal (PyStr "activation_fn"));
            ("act_type", PyVal (PyStr "swish"))]
           (PyStr "swish") ActivationFn.default_name (PyStr "activation_fn")
           (ActivationFn.mk (Some PyNone) (Some (PyStr "swish"))
              (Some ActivationFn.tf_nn_swish)
              (Some (ActivationFn.mkLambda ActivationFn.lambda_self_act
                       ActivationFn.default_name)))).
  - reflexivity.
  - reflexivity.
Defined.

(** ** [BatchNormAct]: axis, flags, defaults and failure *)

Lemma py_eqb_eq (a b : value) : (a ==? b) = true <-> a = b.
Proof.
  destruct a as [|s], b as [|t]; cbn [py_eqb]; split;
    try discriminate; try reflexivity.
  - intros H. apply String.eqb_eq in H. congruence.
  - intros [= ->]. apply String.eqb_refl.
Qed.

(** [call] on a constructed block: the normalization, then the activation
    built for the same tag. *)
Lemma BatchNormAct_call_composition (N : utils.Normalization)
    (is_training_bn : bool) (act_type : value) (init_zero : bool)
    (data_format : value) (momentum epsilon : R) (use_tpu : bool)
    (name parent_name : value) (self : BatchNormAct.t) (inputs : tensor) :
  BatchNormAct.new is_training_bn act_type init_zero data_format momentum
    epsilon use_tpu name parent_name = Ok self ->
  exists l a,
    ActivationFn.new act_type parent_name = Ok a /\
    BatchNormAct.call self inputs =
    (x <- utils.apply l inputs is_training_bn ;; ActivationFn.call a x).
Proof.
  rewrite BatchNormAct_new_eq. intros Hnew.
  apply bind_Ok_inv in Hnew. destruct Hnew as [a [Ha Hself]].
  injection Hself as <-. do 2 eexists. split; [exact Ha|].
  unfold BatchNormAct.call;
    cbn [BatchNormAct.layer BatchNormAct.training BatchNormAct.act getattr bind].
  lazymatch goal with
  | |- bind (utils.apply ?L _ _) _ = bind (utils.apply ?L' _ _) _ => unify L' L
  end.
  destruct (utils.apply _ inputs is_training_bn) as [x|e]; [|reflexivity].
  apply bind_Ok_r.
Qed.

(** X7: the axis stored at construction, which is also the one the
    normalization layer receives, is 1 exactly when [data_format] is
    ['channels_first'] and 3 in every other case. *)
Theorem BatchNormAct_axis_by_data_format :
  forall (is_training_bn : bool) (act_type : value) (init_zero : bool)
         (data_format : value) (momentum epsilon : R) (use_tpu : bool)
         (name parent_name : value) (self : BatchNormAct.t),
    BatchNormAct.new is_training_bn act_type init_zero data_format momentum
      epsilon use_tpu name parent_name = Ok self ->
    exists l ax,
      BatchNormAct.axis self = Some ax /\
      BatchNormAct.layer self = Some l /\
      utils.axis l = ax /\
      (ax = 1%Z <-> data_format = PyStr "channels_first") /\
      (ax = 3%Z <-> data_format <> PyStr "channels_first").
Proof.
  intros is_training_bn act_type init_zero data_format momentum epsilon
    use_tpu name parent_name self Hnew.
  rewrite BatchNormAct_new_eq in Hnew. apply bind_Ok_inv in Hnew.
  destruct Hnew as [a [_ Hself]]. injection Hself as <-.
  do 2 eexists. split; [reflexivity|]. split; [reflexivity|].
  split; [reflexivity|].
  pose proof (py_eqb_eq data_format (PyStr "channels_first")) as Heq.
  destruct (data_format ==? PyStr "channels_first").
  - split; split; try reflexivity; try discriminate.
    + intros _. apply Heq. reflexivity.
    + intros Hne. exfalso. apply Hne, Heq. reflexivity.
  - split; split; try reflexivity; try discriminate.
    + intros Hdf. apply Heq in Hdf. discriminate Hdf.
    + intros _ Hdf. apply Heq in Hdf. discriminate Hdf.
Qed.

(** A block built for the layout ['channels_first']. *)
Lemma BatchNormAct_axis_by_data_format_witness :
  exists self,
    BatchNormAct.new true (PyStr "swish") false (PyStr "channels_first")
      0.99 1e-3 false (PyStr "bn") (PyStr "stem") = Ok self /\
    exists l ax,
      BatchNormAct.axis self = Some ax /\
      BatchNormAct.layer self = Some l /\
      utils.axis l = ax /\
      (ax = 1%Z <-> PyStr "channels_first" = PyStr "channels_first") /\
      (ax = 3%Z <-> PyStr "channels_first" <> PyStr "channels_first").
Proof.
  eexists. split; [reflexivity|].
  apply (BatchNormAct_axis_by_data_format true (PyStr "swish") false
           (PyStr "channels_first") 0.99 1e-3 false (PyStr "bn")
           (PyStr "stem")).
  reflexivity.
Defined.

(** X8: [call] on a constructed block raises exactly when the normalization
    layer raises, and then the same exception; when the normalization
    returns a tensor, [call] returns a tensor of that shape.  The activation
    adds no failure of its own. *)
Theorem BatchNormAct_call_fails_only_in_normalization :
  forall (N : utils.Normalization)
         (is_training_bn : bool) (act_type : value) (init_zero : bool)
         (data_format : value) (momentum epsilon : R) (use_tpu : bool)
         (name parent_name : value) (self : BatchNormAct.t) (inputs : tensor),
    BatchNormAct.new is_training_bn act_type init_zero data_format momentum
      epsilon use_tpu name parent_name = Ok self ->
    exists l,
      BatchNormAct.layer self = Some l /\
      (forall e,
         BatchNormAct.call self inputs = Raise e <->
         utils.apply l inputs is_training_bn = Raise e) /\
      (forall x,
         utils.apply l inputs is_training_bn = Ok x ->
         exists y, BatchNormAct.call self inputs = Ok y /\ shape y = shape x).
Proof.
  intros N is_training_bn act_type init_zero data_format momentum epsilon
    use_tpu name parent_name self inputs Hnew.
  pose proof Hnew as Hnew0.
  rewrite BatchNormAct_new_eq in Hnew. apply bind_Ok_inv in Hnew.
  destruct Hnew as [a [Ha Hself]]. injection Hself as <-.
  eexists. split; [reflexivity|].
  unfold BatchNormAct.call;
    cbn [BatchNormAct.layer BatchNormAct.training BatchNormAct.act getattr bind].
  destruct (utils.apply _ inputs is_training_bn) as [x|e0].
  - cbn [bind]. rewrite bind_Ok_r.
    destruct (ActivationFn_call_shape _ _ _ x Ha) as [y [Hy Hsh]].
    rewrite Hy. split.
    + intros e. split; discriminate.
    + intros x' [= <-]. exists y. split; [reflexivity | exact Hsh].
  - cbn [bind]. split.
    + intros e. split; intros H; exact H.
    + intros x H. discriminate H.
Qed.

(** A block built for ['relu'], applied over the plain normalization. *)
Lemma BatchNormAct_call_fails_only_in_normalization_witness :
  exists self,
    BatchNormAct.new true (PyStr "relu") false (PyStr "channels_last")
      0.99 1e-3 false (PyStr "bn") (PyStr "block") = Ok self /\
    exists l,
      BatchNormAct.layer self = Some l /\
      (forall e,
         @BatchNormAct.call plain_normalization self (Dim [Scalar (-1)]) =
           Raise e <->
         @utils.apply plain_normalization l (Dim [Scalar (-1)]) true = Raise e) /\
      (forall x,
         @utils.apply plain_normalization l (Dim [Scalar (-1)]) true = Ok x ->
         exists y,
           @BatchNormAct.call plain_normalization self (Dim [Scalar (-1)]) =
             Ok y /\
           shape y = shape x).
Proof.
  eexists. split; [reflexivity|].
  apply (BatchNormAct_call_fails_only_in_normalization plain_normalization
           true (PyStr "relu") false (PyStr "channels_last") 0.99 1e-3 false
           (PyStr "bn") (PyStr "block")).
  reflexivity.
Defined.

(** X9: outside training [use_tpu] has no effect: with [is_training_bn]
    false the constructor returns the same object, or raises the same
    exception, whatever [use_tpu]. *)
Theorem BatchNormAct_use_tpu_only_in_training :
  forall (act_type : value) (init_zero : bool) (data_format : value)
         (momentum epsilon : R) (name parent_name : value)
         (use_tpu use_tpu' : bool),
    BatchNormAct.new false act_type init_zero data_format momentum epsilon
      use_tpu name parent_name =
    BatchNormAct.new false act_type init_zero data_format momentum epsilon
      use_tpu' name parent_name.
Proof.
  intros. rewrite !BatchNormAct_new_eq. reflexivity.
Qed.

(** X10: with every optional parameter at its default, a recognized tag
    gives a block whose normalization layer is a [BatchNormalization] on
    axis 3 with momentum 0.99, epsilon 0.001 and gamma initialized to ones;
    the absent names are rendered as text, so that the normalization layer
    is named ['None/None'], and the activation gets no name. *)
Theorem BatchNormAct_defaults :
  forall (is_training_bn : bool) (act_type : value),
    recognized act_type ->
    exists self a,
      BatchNormAct.new_defaults is_training_bn act_type = Ok self /\
      BatchNormAct.layer self =
        Some (utils.BatchNormalization 3%Z 0.99 1e-3 true true
                tf.ones_initializer "None/None") /\
      BatchNormAct.training self = Some is_training_bn /\
      BatchNormAct.layer_name self = Some PyNone /\
      BatchNormAct.act self = Some a /\
      ActivationFn.new act_type PyNone = Ok a.
Proof.
  intros is_training_bn act_type Hrec. unfold BatchNormAct.new_defaults.
  destruct (BatchNormAct_new_recognized is_training_bn act_type false 0.99 1e-3
              false PyNone PyNone (PyStr "channels_last") Hrec)
    as [a [Ha Hnew]].
  rewrite Hnew. do 2 eexists. split; [reflexivity|].
  cbn [BatchNormAct.layer BatchNormAct.training BatchNormAct.layer_name
       BatchNormAct.act].
  rewrite andb_false_r.
  split; [reflexivity|]. split; [reflexivity|]. split; [reflexivity|].
  split; [reflexivity | exact Ha].
Qed.

(** The defaults around a ['swish'] block in training. *)
Lemma BatchNormAct_defaults_witness :
  exists self a,
    BatchNormAct.new_defaults true (PyStr "swish") = Ok self /\
    BatchNormAct.layer self =
      Some (utils.BatchNormalization 3%Z 0.99 1e-3 true true
              tf.ones_initializer "None/None") /\
    BatchNormAct.training self = Some true /\
    BatchNormAct.layer_name self = Some PyNone /\
    BatchNormAct.act self = Some a /\
    ActivationFn.new (PyStr "swish") PyNone = Ok a.
Proof.
  apply (BatchNormAct_defaults true (PyStr "swish")).
  exists Spec.identity_swish. reflexivity.
Defined.

(** X14: whatever the normalization computes, a block built for ['relu'] or
    ['relu6'] returns only tensors without a negative entry, and a block
    built for ['relu6'] only tensors with every entry at most 6. *)
Theorem BatchNormAct_rectified_output_range :
  forall (N : utils.Normalization) (k : Spec.ActivationKind)
         (is_training_bn : bool) (init_zero : bool)
         (data_format : value) (momentum epsilon : R) (use_tpu : bool)
         (name parent_name : value) (self : BatchNormAct.t)
         (inputs y : tensor),
    k = Spec.relu \/ k = Spec.relu_capped_at_6 ->
    BatchNormAct.new is_training_bn (Spec.tag k) init_zero data_format
      momentum epsilon use_tpu name parent_name = Ok self ->
    BatchNormAct.call self inputs = Ok y ->
    Forall (fun v => 0 <= v /\ (k = Spec.relu_capped_at_6 -> v <= 6))
           (entries y).
Proof.
  intros N k is_training_bn init_zero data_format momentum epsilon use_tpu
    name parent_name self inputs y Hk Hnew Hcall.
  destruct (BatchNormAct_call_composition N _ _ _ _ _ _ _ _ _ self inputs Hnew)
    as [l [a [Ha Hc]]].
  rewrite Hc in Hcall. apply bind_Ok_inv in Hcall.
  destruct Hcall as [x [_ Hy]].
  rewrite (ActivationFn_call_elementwise k _ _ x Ha) in Hy.
  injection Hy as <-. rewrite entries_tmap.
  apply Forall_map_image. intros v.
  destruct Hk as [-> | ->].
  - split; [apply relu_scalar_range | discriminate].
  - split; [|intros _]; apply relu6_scalar_range.
Qed.

(** A ['relu6'] block over the plain normalization, on the entry 9. *)
Lemma BatchNormAct_rectified_output_range_witness :
  exists self y,
    BatchNormAct.new false (PyStr "relu6") false (PyStr "channels_last")
      0.99 1e-3 false (PyStr "bn") (PyStr "head") = Ok self /\
    @BatchNormAct.call plain_normalization self (Dim [Scalar 9]) = Ok y /\
    Forall (fun v => 0 <= v /\
                     (Spec.relu_capped_at_6 = Spec.relu_capped_at_6 -> v <= 6))
           (entries y).
Proof.
  do 2 eexists. split; [reflexivity|]. split; [reflexivity|].
  eapply (BatchNormAct_rectified_output_range plain_normalization
            Spec.relu_capped_at_6 false false (PyStr "channels_last") 0.99 1e-3
            false (PyStr "bn") (PyStr "head") _ (Dim [Scalar 9])).
  - right. reflexivity.
  - reflexivity.
  - reflexivity.
Defined.

(** ** [DropConnect]: the method in use and the nested function *)

(** X11: [call] returns its input for every survival probability and every
    input, a probability of zero or outside [(0, 1]] included: it never
    raises, draws nothing and divides by nothing, and two layers with
    different probabilities cannot be told apart. *)
Theorem DropConnect_call_ignores_survival_prob :
  forall (p p' : R) (name name' : value) (inputs : tensor),
    DropConnect.call (DropConnect.new p name) inputs = Ok inputs /\
    DropConnect.call (DropConnect.new p name) inputs =
    DropConnect.call (DropConnect.new p' name') inputs /\
    DropConnect.survival_prob (DropConnect.new p name) = Some p.
Proof. intros. repeat split. Qed.



(** X13: at survival probability 1, on a batch of samples with three
    dimensions (an input of four dimensions) and with as many draws as
    samples, all in [[0, 1)], the nested function returns the batch
    unchanged: on such inputs it agrees with the [call] in use. *)
Theorem DropConnect_nested_call_at_one :
  forall (name : value) (random_uniform : nat -> list R)
         (samples : list tensor),
    (forall n, length (random_uniform n) = n) ->
    (forall n, Forall (fun u => 0 <= u < 1) (random_uniform n)) ->
    forallb (fun s => has_rank s 3) samples = true ->
    DropConnect.__init__call (DropConnect.new 1 name) random_uniform
      (Dim samples) = Ok (Dim samples) /\
    DropConnect.__init__call (DropConnect.new 1 name) random_uniform
      (Dim samples) =
    DropConnect.call (DropConnect.new 1 name) (Dim samples).
Proof.
  intros name random_uniform samples Hlen Hrange Hrank.
  assert (H : DropConnect.__init__call (DropConnect.new 1 name) random_uniform
                (Dim samples) = Ok (Dim samples)).
  { rewrite (DropConnect_nested_call_specified 1 name random_uniform samples
               Hlen Hrank).
    cbn [Spec.stochastic_depth]. do 2 f_equal.
    specialize (Hlen (length samples)). specialize (Hrange (length samples)).
    generalize dependent (random_uniform (length samples)).
    clear Hrank. induction samples as [|s samples' IH]; intros us Hlen Hrange;
      [reflexivity|].
    destruct us as [|u us']; [discriminate Hlen|].
    inversion Hrange as [|? ? Hu Hus]; subst.
    cbn [combine map fst snd]. f_equal.
    - apply tmap_fixed. apply Forall_forall. intros a _.
      rewrite (keep_mask_keep 1 u) by lra. lra.
    - apply IH; [now injection Hlen | exact Hus]. }
  split; [exact H|]. rewrite H. reflexivity.
Qed.

(** Two samples, the draws 1/4 and 1/4. *)
Lemma DropConnect_nested_call_at_one_witness :
  DropConnect.__init__call (DropConnect.new 1 DropConnect.default_name)
    (fun n => repeat (1/4) n) (Dim [sample 1; sample 3]) =
    Ok (Dim [sample 1; sample 3]) /\
  DropConnect.__init__call (DropConnect.new 1 DropConnect.default_name)
    (fun n => repeat (1/4) n) (Dim [sample 1; sample 3]) =
  DropConnect.call (DropConnect.new 1 DropConnect.default_name)
    (Dim [sample 1; sample 3]).
Proof.
  apply (DropConnect_nested_call_at_one DropConnect.default_name
           (fun n => repeat (1/4) n) [sample 1; sample 3]).
  - intros n. apply repeat_length.
  - intros n. apply Forall_forall. intros u Hu.
    apply repeat_spec in Hu. subst u. lra.
  - reflexivity.
Defined.
